(** * ESC/POS printer emulator: command decoder and line renderer

    A shallow embedding of [printer_emulator.py] (class [ESCPOSSimulator])
    and the properties of its decoder and of its text layout.

    Conventions of the embedding.
    - A [bytearray] is a [list Z]; its elements are in 0..255, and the
      decoder itself never relies on it.
    - The cursor [i] is a [nat]: it starts at 0 and is only ever increased,
      so Python's negative indexing is never in play.
    - Python [str] is [string]; [chr b] for a byte is [ascii_of_nat b].
    - [int] is [Z]; [//] and [%] with a positive divisor are [Z.div] and
      [Z.modulo] (both round towards minus infinity, as Python does).
    - Exceptions are explicit: a subscript out of range raises [IndexError],
      a division by zero raises [ZeroDivisionError] (monad [res]).
    - The object [self] is threaded through every method. *)

From Stdlib Require Import ZArith List String Ascii Bool Arith Lia.
Import ListNotations.

Local Open Scope string_scope.
Local Open Scope Z_scope.

(** ** Exceptions *)

Inductive exn : Type :=
| IndexError
| ZeroDivisionError.

Inductive res (A : Type) : Type :=
| Ok (a : A)
| Raise (e : exn).

Arguments Ok {A} a.
Arguments Raise {A} e.

Definition bind {A B : Type} (m : res A) (k : A -> res B) : res B :=
  match m with
  | Ok a => k a
  | Raise e => Raise e
  end.

Notation "x <- m ;; k" := (bind m (fun x => k))
  (at level 61, m at next level, right associativity).
Notation "' p <- m ;; k" := (bind m (fun p => k))
  (at level 61, p pattern, m at next level, right associativity).

(** The result of a loop run with a bound on its number of iterations. *)
Inductive outcome (A : Type) : Type :=
| Returned (a : A)
| Raised (e : exn)
| OutOfFuel.

Arguments Returned {A} a.
Arguments Raised {A} e.
Arguments OutOfFuel {A}.

(** ** Python primitives *)

(** [data[i]] *)
Definition getitem (data : list Z) (i : nat) : res Z :=
  match nth_error data i with
  | Some b => Ok b
  | None => Raise IndexError
  end.

(** [a // b] *)
Definition floordiv (a b : Z) : res Z :=
  if b =? 0 then Raise ZeroDivisionError else Ok (a / b).

(** [bool(n)] for an int *)
Definition bool_of_int (n : Z) : bool := negb (n =? 0).

(** [chr(b)] on the guarded range 32..126 *)
Definition chr (b : Z) : ascii := ascii_of_nat (Z.to_nat b).

Definition len (s : string) : Z := Z.of_nat (String.length s).

(** [s * n] for a string: the empty string when [n <= 0]. *)
Fixpoint str_repeat (s : string) (n : nat) : string :=
  match n with
  | O => ""
  | S n' => s ++ str_repeat s n'
  end.

Definition str_mul (s : string) (n : Z) : string := str_repeat s (Z.to_nat n).

(** CPython's [pad(self, left, right, ' ')]. *)
Definition pad (text : string) (left right : Z) : string :=
  str_mul " " left ++ text ++ str_mul " " right.

(** [str.ljust], [str.rjust], [str.center] with the default fill character.
    CPython ([unicodeobject.c]) returns the string unchanged when it is at
    least [width] long; [center] puts [marg / 2 + (marg & width & 1)]
    spaces on the left and the rest of the margin on the right. *)
Definition ljust (text : string) (width : Z) : string :=
  if len text >=? width then text else pad text 0 (width - len text).

Definition rjust (text : string) (width : Z) : string :=
  if len text >=? width then text else pad text (width - len text) 0.

Definition center (text : string) (width : Z) : string :=
  if len text >=? width then text
  else
    let marg := width - len text in
    let left := marg / 2 + Z.land (Z.land marg width) 1 in
    pad text left (marg - left).

(** [' '.join(list(text))] *)
Fixpoint join_chars (text : string) : string :=
  match text with
  | EmptyString => ""
  | String c EmptyString => String c ""
  | String c rest => String c (String " " (join_chars rest))
  end.

(** [str.isspace] on one character (code points below 256). *)
Definition isspace (c : ascii) : bool :=
  let n := nat_of_ascii c in
  ((9 <=? n) && (n <=? 13) || (28 <=? n) && (n <=? 32)
   || (n =? 133) || (n =? 160))%nat.

Fixpoint lstrip (s : string) : string :=
  match s with
  | EmptyString => ""
  | String c rest => if isspace c then lstrip rest else s
  end.

Fixpoint rstrip (s : string) : string :=
  match s with
  | EmptyString => ""
  | String c rest =>
      match rstrip rest with
      | EmptyString => if isspace c then "" else String c ""
      | r => String c r
      end
  end.

(** [s.strip()] *)
Definition strip (s : string) : string := rstrip (lstrip s).

(** Truth value of a string or of a list: non-empty. *)
Definition str_truthy (s : string) : bool :=
  match s with EmptyString => false | _ => true end.

Definition list_truthy {A : Type} (l : list A) : bool :=
  match l with [] => false | _ => true end.

(** ** Control bytes ([class PrinterCommand]) *)

Module PrinterCommand.
Definition ESC : Z := 0x1B.
Definition GS  : Z := 0x1D.
Definition FS  : Z := 0x1C.
Definition DLE : Z := 0x10.
Definition EOT : Z := 0x04.
Definition NUL : Z := 0x00.
Definition LF  : Z := 0x0A.
Definition CR  : Z := 0x0D.
Definition HT  : Z := 0x09.
Definition FF  : Z := 0x0C.
Definition CAN : Z := 0x18.
End PrinterCommand.

(** ** The formatting state ([class PrinterState]) *)

Record PrinterState : Type := mkPrinterState {
  chars_per_line : Z;
  alignment : Z;            (* 0=left, 1=center, 2=right *)
  bold : bool;
  underline : bool;
  double_width : bool;
  double_height : bool;
  font_size : Z;
  char_spacing : Z;
  line_spacing : Z;
  code_page : Z;
  white_on_black : bool;
  upside_down : bool;
  emphasized : bool;
  double_strike : bool;
  font_b : bool;
  italic : bool
}.

(** [PrinterState()]: every field at its declared default. *)
Definition PrinterState_new : PrinterState :=
  {| chars_per_line := 48;
     alignment := 0;
     bold := false;
     underline := false;
     double_width := false;
     double_height := false;
     font_size := 1;
     char_spacing := 0;
     line_spacing := 30;
     code_page := 0;
     white_on_black := false;
     upside_down := false;
     emphasized := false;
     double_strike := false;
     font_b := false;
     italic := false |}.

(** Attribute assignments [state.f = v]. *)
Definition set_alignment (v : Z) (st : PrinterState) : PrinterState :=
  mkPrinterState (chars_per_line st) v (bold st) (underline st)
    (double_width st) (double_height st) (font_size st) (char_spacing st)
    (line_spacing st) (code_page st) (white_on_black st) (upside_down st)
    (emphasized st) (double_strike st) (font_b st) (italic st).

Definition set_emphasized (v : bool) (st : PrinterState) : PrinterState :=
  mkPrinterState (chars_per_line st) (alignment st) (bold st) (underline st)
    (double_width st) (double_height st) (font_size st) (char_spacing st)
    (line_spacing st) (code_page st) (white_on_black st) (upside_down st)
    v (double_strike st) (font_b st) (italic st).

Definition set_code_page (v : Z) (st : PrinterState) : PrinterState :=
  mkPrinterState (chars_per_line st) (alignment st) (bold st) (underline st)
    (double_width st) (double_height st) (font_size st) (char_spacing st)
    (line_spacing st) v (white_on_black st) (upside_down st)
    (emphasized st) (double_strike st) (font_b st) (italic st).

Definition set_font_b (v : bool) (st : PrinterState) : PrinterState :=
  mkPrinterState (chars_per_line st) (alignment st) (bold st) (underline st)
    (double_width st) (double_height st) (font_size st) (char_spacing st)
    (line_spacing st) (code_page st) (white_on_black st) (upside_down st)
    (emphasized st) (double_strike st) v (italic st).

Definition set_double_height (v : bool) (st : PrinterState) : PrinterState :=
  mkPrinterState (chars_per_line st) (alignment st) (bold st) (underline st)
    (double_width st) v (font_size st) (char_spacing st)
    (line_spacing st) (code_page st) (white_on_black st) (upside_down st)
    (emphasized st) (double_strike st) (font_b st) (italic st).

Definition set_double_width (v : bool) (st : PrinterState) : PrinterState :=
  mkPrinterState (chars_per_line st) (alignment st) (bold st) (underline st)
    v (double_height st) (font_size st) (char_spacing st)
    (line_spacing st) (code_page st) (white_on_black st) (upside_down st)
    (emphasized st) (double_strike st) (font_b st) (italic st).

Definition set_font_size (v : Z) (st : PrinterState) : PrinterState :=
  mkPrinterState (chars_per_line st) (alignment st) (bold st) (underline st)
    (double_width st) (double_height st) v (char_spacing st)
    (line_spacing st) (code_page st) (white_on_black st) (upside_down st)
    (emphasized st) (double_strike st) (font_b st) (italic st).

(** ** The engine ([class ESCPOSSimulator]) *)

Record ESCPOSSimulator : Type := mkSim {
  port : Z;
  state : PrinterState;
  buffer : list string;
  current_line : string
}.

(** [ESCPOSSimulator(port)] *)
Definition ESCPOSSimulator_new (port : Z) : ESCPOSSimulator :=
  {| port := port; state := PrinterState_new; buffer := []; current_line := "" |}.

Definition with_state (st : PrinterState) (self : ESCPOSSimulator) :=
  mkSim (port self) st (buffer self) (current_line self).

Definition with_buffer (b : list string) (self : ESCPOSSimulator) :=
  mkSim (port self) (state self) b (current_line self).

Definition with_current_line (l : string) (self : ESCPOSSimulator) :=
  mkSim (port self) (state self) (buffer self) l.

(** [self.state.f = v] *)
Definition upd_state (f : PrinterState -> PrinterState) (self : ESCPOSSimulator) :=
  with_state (f (state self)) self.

(** ** Rendering one line ([format_line]) *)

Definition ESC_char : ascii := ascii_of_nat 27.
Definition bold_on : string := String ESC_char "[1m".
Definition bold_off : string := String ESC_char "[0m".

(** Step 1: the width the text is justified to. *)
Definition effective_width (st : PrinterState) : res Z :=
  let w := chars_per_line st in
  let w := if double_width st then w / 2 else w in
  if font_size st >? 1 then floordiv w (font_size st) else Ok w.

(** Step 2: alignment. *)
Definition justify (st : PrinterState) (text : string) (w : Z) : string :=
  if alignment st =? 1 then center text w
  else if alignment st =? 2 then rjust text w
  else ljust text w.

(** Step 3: emphasis. *)
Definition annotate (st : PrinterState) (text : string) : string :=
  if emphasized st then bold_on ++ text ++ bold_off else text.

(** Step 4: scaling. *)
Definition expand (st : PrinterState) (text : string) : string :=
  if double_width st || (font_size st >? 1) then join_chars text else text.

Definition format_line (self : ESCPOSSimulator) (text : string) : res string :=
  let st := state self in
  w <- effective_width st ;;
  let text := justify st text w in
  let text := annotate st text in
  let text := expand st text in
  Ok text.

(** ** Flushing the current line ([flush_line]) *)

Definition flush_line (self : ESCPOSSimulator) : res ESCPOSSimulator :=
  if str_truthy (current_line self) then
    line <- format_line self (current_line self) ;;
    Ok (with_current_line "" (with_buffer (buffer self ++ [line])%list self))
  else Ok self.

(** ** Command families ([handle_esc_sequence], [handle_gs_sequence],
       [handle_fs_sequence])

    Each takes the cursor [i] of the introducer byte and returns the engine
    and the cursor after the sequence. *)

Definition handle_esc_sequence (self : ESCPOSSimulator) (data : list Z) (i : nat)
  : res (ESCPOSSimulator * nat) :=
  if (List.length data <=? i + 1)%nat then Ok (self, (i + 1)%nat)
  else
    cmd <- getitem data (i + 1) ;;
    if cmd =? 0x40 then                       (* ESC @ Initialize printer *)
      Ok (with_state PrinterState_new self, (i + 2)%nat)
    else if cmd =? 0x61 then                  (* ESC a n Select justification *)
      self <- (if (i + 2 <? List.length data)%nat then
                 self <- flush_line self ;;
                 n <- getitem data (i + 2) ;;
                 Ok (upd_state (set_alignment (n mod 3)) self)
               else Ok self) ;;
      Ok (self, (i + 3)%nat)
    else if cmd =? 0x45 then                  (* ESC E n Emphasized on/off *)
      self <- (if (i + 2 <? List.length data)%nat then
                 n <- getitem data (i + 2) ;;
                 Ok (upd_state (set_emphasized (bool_of_int n)) self)
               else Ok self) ;;
      Ok (self, (i + 3)%nat)
    else if cmd =? 0x64 then                  (* ESC d n Print and feed n lines *)
      self <- (if (i + 2 <? List.length data)%nat then
                 self <- flush_line self ;;
                 n <- getitem data (i + 2) ;;
                 Ok (with_buffer (buffer self ++ repeat "" (Z.to_nat n))%list self)
               else Ok self) ;;
      Ok (self, (i + 3)%nat)
    else if cmd =? 0x24 then                  (* ESC $ nL nH Absolute position *)
      Ok (self, (i + 4)%nat)
    else if cmd =? 0x74 then                  (* ESC t n Character code table *)
      self <- (if (i + 2 <? List.length data)%nat then
                 n <- getitem data (i + 2) ;;
                 Ok (upd_state (set_code_page n) self)
               else Ok self) ;;
      Ok (self, (i + 3)%nat)
    else if cmd =? 0x21 then                  (* ESC ! n Select print mode(s) *)
      self <- (if (i + 2 <? List.length data)%nat then
                 n <- getitem data (i + 2) ;;
                 let self := upd_state (set_font_b (bool_of_int (Z.land n 1))) self in
                 let self := upd_state (set_emphasized (bool_of_int (Z.land n 8))) self in
                 let self := upd_state (set_double_height (bool_of_int (Z.land n 16))) self in
                 let self := upd_state (set_double_width (bool_of_int (Z.land n 32))) self in
                 Ok self
               else Ok self) ;;
      Ok (self, (i + 3)%nat)
    else Ok (self, (i + 2)%nat).

Definition handle_gs_sequence (self : ESCPOSSimulator) (data : list Z) (i : nat)
  : res (ESCPOSSimulator * nat) :=
  if (List.length data <=? i + 1)%nat then Ok (self, (i + 1)%nat)
  else
    cmd <- getitem data (i + 1) ;;
    if cmd =? 0x56 then                       (* GS V n Cut paper *)
      self <- flush_line self ;;
      let sep := str_mul "-" (chars_per_line (state self)) in
      Ok (with_buffer (buffer self ++ [sep])%list self, (i + 3)%nat)
    else if cmd =? 0x21 then                  (* GS ! n Select character size *)
      self <- (if (i + 2 <? List.length data)%nat then
                 n <- getitem data (i + 2) ;;
                 let width_mag := Z.shiftr (Z.land n 0x70) 4 + 1 in
                 let height_mag := Z.land n 0x07 + 1 in
                 Ok (upd_state (set_font_size (Z.max width_mag height_mag)) self)
               else Ok self) ;;
      Ok (self, (i + 3)%nat)
    else Ok (self, (i + 2)%nat).

Definition handle_fs_sequence (self : ESCPOSSimulator) (data : list Z) (i : nat)
  : res (ESCPOSSimulator * nat) :=
  if (List.length data <=? i + 1)%nat then Ok (self, (i + 1)%nat)
  else
    cmd <- getitem data (i + 1) ;;
    if cmd =? 0x2E then                       (* FS . *)
      Ok (self, (i + 2)%nat)
    else Ok (self, (i + 2)%nat).

(** ** The scan loop of [process_data] *)

(** One iteration of [while i < len(data)], entered with [i < len(data)]. *)
Definition scan_step (self : ESCPOSSimulator) (data : list Z) (i : nat)
  : res (ESCPOSSimulator * nat) :=
  byte <- getitem data i ;;
  if byte =? PrinterCommand.ESC then handle_esc_sequence self data i
  else if byte =? PrinterCommand.GS then handle_gs_sequence self data i
  else if byte =? PrinterCommand.FS then handle_fs_sequence self data i
  else if byte =? PrinterCommand.LF then
    self <- flush_line self ;;
    Ok (self, (i + 1)%nat)
  else if byte =? PrinterCommand.CR then Ok (self, (i + 1)%nat)
  else if (32 <=? byte) && (byte <=? 126) then   (* Printable ASCII *)
    Ok (with_current_line (current_line self ++ String (chr byte) "") self,
        (i + 1)%nat)
  else Ok (self, (i + 1)%nat).

(** The loop, with at most [fuel] iterations; it yields the engine and the
    cursor on exit. *)
Fixpoint scan (fuel : nat) (self : ESCPOSSimulator) (data : list Z) (i : nat)
  : outcome (ESCPOSSimulator * nat) :=
  if (i <? List.length data)%nat then
    match fuel with
    | O => OutOfFuel
    | S fuel' =>
        match scan_step self data i with
        | Ok (self', i') => scan fuel' self' data i'
        | Raise e => Raised e
        end
    end
  else Returned (self, i).

(** The cursor intervals [(i, i')] covered by the successive iterations. *)
Fixpoint scan_spans (fuel : nat) (self : ESCPOSSimulator) (data : list Z) (i : nat)
  : list (nat * nat) :=
  if (i <? List.length data)%nat then
    match fuel with
    | O => []
    | S fuel' =>
        match scan_step self data i with
        | Ok (self', i') => (i, i') :: scan_spans fuel' self' data i'
        | Raise _ => []
        end
    end
  else [].

(** ** Display of the receipt ([print_buffer]) *)

Definition newline : string := String (ascii_of_nat 10) "".

Definition receipt_row (width : Z) (line : string) : string :=
  if str_truthy (strip line) then "│ " ++ line ++ " │"
  else "│" ++ str_mul " " width ++ "│".

(** What [print_buffer] writes for the lines [lines]: one string per
    [print] call. *)
Definition receipt_box (width : Z) (lines : list string) : list string :=
  let title := newline ++ "🧾 Receipt Output:" in
  let top := "┌" ++ str_mul "─" width ++ "┐" in
  let bottom := "└" ++ str_mul "─" width ++ "┘" in
  ([title; top] ++ map (receipt_row width) lines ++ [bottom])%list.

(** Returns the engine and what was printed. *)
Definition print_buffer (self : ESCPOSSimulator)
  : res (ESCPOSSimulator * list string) :=
  if negb (list_truthy (buffer self)) && negb (str_truthy (current_line self))
  then Ok (self, [])
  else
    self <- flush_line self ;;
    let width := chars_per_line (state self) + 2 in
    Ok (with_buffer [] self, receipt_box width (buffer self)).

(** ** Decoding one batch ([process_data])

    The hex dump printed on entry only reads [data] and is left out; the
    second component is what [print_buffer] prints.  The loop is run with
    [len(data)] iterations at hand. *)
Definition process_data (self : ESCPOSSimulator) (data : list Z)
  : outcome (ESCPOSSimulator * list string) :=
  match scan (List.length data) self data 0 with
  | Returned (self, _) =>
      match print_buffer self with
      | Ok r => Returned r
      | Raise e => Raised e
      end
  | Raised e => Raised e
  | OutOfFuel => OutOfFuel
  end.

(** ** Predicates on batches *)

(** Some adjacent pair of bytes of [data] is ESC @. *)
Fixpoint has_initialize (data : list Z) : bool :=
  match data with
  | [] => false
  | a :: rest =>
      match rest with
      | [] => false
      | b :: _ => (a =? PrinterCommand.ESC) && (b =? 0x40) || has_initialize rest
      end
  end.

(** Some byte of [data] opens a command family that writes the state. *)
Definition has_introducer (data : list Z) : bool :=
  existsb (fun b => (b =? PrinterCommand.ESC) || (b =? PrinterCommand.GS)) data.

(** The fields of the state no command assigns. *)
Definition same_static (st st' : PrinterState) : Prop :=
  chars_per_line st' = chars_per_line st /\
  bold st' = bold st /\
  underline st' = underline st /\
  char_spacing st' = char_spacing st /\
  line_spacing st' = line_spacing st /\
  white_on_black st' = white_on_black st /\
  upside_down st' = upside_down st /\
  double_strike st' = double_strike st /\
  italic st' = italic st.

(** The cursor [k] lies in the interval [(a, b)]. *)
Definition in_span (k : nat) (ab : nat * nat) : bool :=
  ((fst ab <=? k) && (k <? snd ab))%nat.

(** ** The layout and the character size as the specification words them *)

(** Centring with the margin split as evenly as possible and the extra
    space on the right. *)
Definition center_spec (text : string) (width : Z) : string :=
  if len text >=? width then text
  else
    let marg := width - len text in
    pad text (marg / 2) (marg - marg / 2).

Definition justify_spec (st : PrinterState) (text : string) (w : Z) : string :=
  if alignment st =? 1 then center_spec text w
  else if alignment st =? 2 then rjust text w
  else ljust text w.

Definition format_line_spec (self : ESCPOSSimulator) (text : string) : res string :=
  let st := state self in
  w <- effective_width st ;;
  Ok (expand st (annotate st (justify_spec st text w))).

(** Width magnification from the high nibble, height magnification from
    the low nibble, each the nibble value plus 1. *)
Definition high_nibble (n : Z) : Z := Z.shiftr n 4.
Definition low_nibble (n : Z) : Z := Z.land n 0x0F.

Definition font_size_spec (n : Z) : Z :=
  Z.max (high_nibble n + 1) (low_nibble n + 1).

(** ** Concrete engines and inputs *)

Definition sim0 : ESCPOSSimulator := ESCPOSSimulator_new 9100.

Definition fmt (st : PrinterState) (text : string) : res string :=
  format_line (with_state st sim0) text.

Definition st_width (w : Z) (a : Z) : PrinterState :=
  mkPrinterState w a false false false false 1 0 30 0 false false false false
    false false.

(** An engine away from its defaults in every respect. *)
Definition st_styled : PrinterState :=
  mkPrinterState 32 2 true true true true 3 1 24 5 true true true true true
    true.

Definition sim_styled : ESCPOSSimulator :=
  mkSim 9100 st_styled ["total"] "12.50".

(** ESC @ after one byte of text. *)
Definition data_initialize : list Z := [0x41; 0x1B; 0x40].

(** ESC a with its argument missing. *)
Definition data_truncated_justification : list Z := [0x1B; 0x61].

(** GS ! n *)
Definition data_char_size (n : Z) : list Z := [0x1D; 0x21; n].

(** GS V 0 *)
Definition data_cut : list Z := [0x1D; 0x56; 0x00].

(** GS ! 0x40 (width magnification 5), ESC a 1 (center), "hi", LF. *)
Definition data_center_size5 : list Z :=
  [0x1D; 0x21; 0x40; 0x1B; 0x61; 0x01; 0x68; 0x69; 0x0A].

(** The state the first two commands of [data_center_size5] lead to. *)
Definition st_center_size5 : PrinterState :=
  set_alignment 1 (set_font_size 5 PrinterState_new).

(** Text and a line feed, no command. *)
Definition data_plain : list Z := [0x48; 0x69; 0x0A; 0x4F; 0x4B].

(** Emphasis on, then text. *)
Definition data_emphasis_text : list Z := [0x1B; 0x45; 0x01; 0x48; 0x69].

(** ** Bytes that open no command family *)

(** The test [32 <= byte <= 126] of the loop. *)
Definition is_printable (b : Z) : bool := (32 <=? b) && (b <=? 126).

(** The three introducers the loop dispatches on. *)
Definition is_introducer (b : Z) : bool :=
  (b =? PrinterCommand.ESC) || (b =? PrinterCommand.GS)
  || (b =? PrinterCommand.FS).

(** The engine after [flush_line], which never raises. *)
Definition flushed (self : ESCPOSSimulator) : ESCPOSSimulator :=
  match flush_line self with
  | Ok s => s
  | Raise _ => self
  end.

(** What one iteration of the loop does to the engine on a byte that is no
    introducer: the branches LF, CR, printable and other of [process_data]. *)
Definition feed (self : ESCPOSSimulator) (b : Z) : ESCPOSSimulator :=
  if b =? PrinterCommand.LF then flushed self
  else if b =? PrinterCommand.CR then self
  else if is_printable b then
    with_current_line (current_line self ++ String (chr b) "") self
  else self.

(** A byte the loop passes over: no introducer, no line feed, not
    printable (carriage return included). *)
Definition is_ignored (b : Z) : bool :=
  negb (is_introducer b) && negb (b =? PrinterCommand.LF)
  && negb (is_printable b).

(** [ord(c)] and the bytes of a text, [s.encode('latin-1')]. *)
Definition ord (c : ascii) : Z := Z.of_nat (nat_of_ascii c).

Fixpoint encode (s : string) : list Z :=
  match s with
  | EmptyString => []
  | String c rest => ord c :: encode rest
  end.

(** Every character of the text is printable ASCII. *)
Fixpoint printable_text (s : string) : bool :=
  match s with
  | EmptyString => true
  | String c rest => is_printable (ord c) && printable_text rest
  end.

(** The bytes of a document: every line followed by LF. *)
Definition encode_lines (ls : list string) : list Z :=
  List.concat (map (fun l => (encode l ++ [PrinterCommand.LF])%list) ls).

(** ** The hex dump printed on entry of [process_data] *)

(** One digit of the format [x]: [d] in 0..15. *)
Definition hex_digit (d : Z) : ascii :=
  match String.get (Z.to_nat d) "0123456789abcdef" with
  | Some c => c
  | None => "0"%char
  end.

(** [f'{b:02x}'] for an element [b] of a [bytearray] (0..255): two
    lowercase digits. *)
Definition hex2 (b : Z) : string :=
  String (hex_digit (b / 16)) (String (hex_digit (b mod 16)) "").

(** [' '.join(f'{b:02x}' for b in data)] *)
Definition hex_dump (data : list Z) : string :=
  String.concat " " (map hex2 data).

(** The elements of a [bytearray]. *)
Definition is_byte (b : Z) : bool := (0 <=? b) && (b <? 256).

(** ** Predicates on states *)

(** What holds of the state of an engine made by [ESCPOSSimulator()] at
    any later time: the width it was built with and the ranges the
    commands write. *)
Definition wf_state (st : PrinterState) : Prop :=
  chars_per_line st = 48 /\
  0 <= alignment st <= 2 /\
  1 <= font_size st <= 8.

(** The fields [format_line] reads. *)
Definition same_layout (st st' : PrinterState) : Prop :=
  chars_per_line st' = chars_per_line st /\
  double_width st' = double_width st /\
  font_size st' = font_size st /\
  alignment st' = alignment st /\
  emphasized st' = emphasized st.

(** Further inputs. *)

(** "Total" then ESC a 2 0x1B: right justification whose argument byte is
    an ESC. *)
Definition data_justify_right : list Z := [0x54; 0x1B; 0x61; 0x02; 0x1B].

(** ESC E 1 *)
Definition data_emphasis_on : list Z := [0x1B; 0x45; 0x01].

(** ESC d 3 *)
Definition data_feed3 : list Z := [0x1B; 0x64; 0x03].

(** ESC $ with no argument byte. *)
Definition data_position_truncated : list Z := [0x41; 0x1B; 0x24].

(** ESC t 16 *)
Definition data_code_page : list Z := [0x1B; 0x74; 0x10].

(** ESC ! 0x21: font B and double width. *)
Definition data_print_mode : list Z := [0x1B; 0x21; 0x21].

(** FS . and FS & *)
Definition data_fs : list Z := [0x1C; 0x2E; 0x1C; 0x26].

(** ESC 2 (set default line spacing), not decoded. *)
Definition data_unknown_esc : list Z := [0x1B; 0x32; 0x41].

(** GS ! with its argument missing, after one byte of text. *)
Definition data_truncated_size : list Z := [0x41; 0x1D; 0x21].

(** NUL, HT, CR, DEL, 0xE9, DLE. *)
Definition data_ignored : list Z := [0x00; 0x09; 0x0D; 0x7F; 0xE9; 0x10].

(** An engine with nothing pending. *)
Definition sim_clean_styled : ESCPOSSimulator := mkSim 9100 st_styled [] "".

(** ** Sanity checks on concrete inputs *)

Example format_left : fmt (st_width 10 0) "hello" = Ok "hello     ".
Proof. reflexivity. Qed.

Example format_center : fmt (st_width 10 1) "hi" = Ok "    hi    ".
Proof. reflexivity. Qed.

Example format_right : fmt (st_width 10 2) "hi" = Ok "        hi".
Proof. reflexivity. Qed.

Example format_double_width :
  fmt (set_double_width true (st_width 10 0)) "AB" = Ok "A B      ".
Proof. reflexivity. Qed.

Example process_empty :
  process_data sim0 [] = Returned (sim0, []).
Proof. reflexivity. Qed.

(** Emphasis switched on in one batch is still on in the next. *)
Example emphasis_survives_batch :
  exists self1 out1 self2 out2,
    process_data sim0 data_emphasis_text = Returned (self1, out1) /\
    emphasized (state self1) = true /\
    process_data self1 data_plain = Returned (self2, out2) /\
    emphasized (state self2) = true /\
    nth_error out2 2
    = Some ("│ " ++ bold_on ++ "Hi" ++ str_repeat " " 46 ++ bold_off ++ " │").
Proof. do 4 eexists. repeat split. Qed.

Example process_text_lf :
  process_data sim0 [0x48; 0x69; 0x0A]
  = Returned (sim0, receipt_box 50 ["Hi" ++ str_repeat " " 46]).
Proof. reflexivity. Qed.

(** ** The primitives never fail on their guarded paths *)

Lemma getitem_ok (data : list Z) (i : nat) :
  (i < List.length data)%nat -> exists b, getitem data i = Ok b.
Proof.
  intros H. unfold getitem.
  destruct (nth_error data i) as [b|] eqn:E.
  - now exists b.
  - apply nth_error_None in E. lia.
Qed.

Lemma getitem_nth (data : list Z) (i : nat) (b : Z) :
  getitem data i = Ok b <-> nth_error data i = Some b.
Proof.
  unfold getitem. destruct (nth_error data i); split; congruence.
Qed.

Lemma effective_width_ok (st : PrinterState) :
  exists w, effective_width st = Ok w.
Proof.
  unfold effective_width, floordiv.
  destruct (font_size st >? 1) eqn:F; [|eauto].
  destruct (font_size st =? 0) eqn:Z0; [|eauto].
  apply Z.eqb_eq in Z0. rewrite Z0 in F. discriminate.
Qed.

Lemma format_line_ok (self : ESCPOSSimulator) (text : string) :
  exists r, format_line self text = Ok r.
Proof.
  unfold format_line.
  destruct (effective_width_ok (state self)) as [w ->]. simpl. eauto.
Qed.

(** [flush_line] returns; it leaves the state alone, empties the current
    line, and appends the rendering of a non-empty current line. *)
Lemma flush_line_spec (self : ESCPOSSimulator) :
  exists self',
    flush_line self = Ok self' /\
    state self' = state self /\
    port self' = port self /\
    current_line self' = "" /\
    (current_line self = "" -> buffer self' = buffer self) /\
    (current_line self <> "" ->
     exists r, format_line self (current_line self) = Ok r /\
               buffer self' = (buffer self ++ [r])%list).
Proof.
  unfold flush_line.
  destruct (current_line self) as [|c rest] eqn:E; simpl.
  - exists self. repeat split; auto. congruence.
  - destruct (format_line_ok self (String c rest)) as [r Hr].
    rewrite Hr. simpl. eexists. repeat split; simpl; eauto.
    congruence.
Qed.

Lemma flush_line_ok (self : ESCPOSSimulator) :
  exists self', flush_line self = Ok self' /\ state self' = state self.
Proof.
  destruct (flush_line_spec self) as (s & H & Hs & _). eauto.
Qed.

(** ** Progress of the command families *)

Ltac guard_cases :=
  repeat match goal with
  | |- context [if ?c then _ else _] => destruct c eqn:?
  end.

Ltac run_getitem :=
  match goal with
  | |- context [getitem ?d ?k] =>
      let b := fresh "b" in
      let E := fresh "E" in
      destruct (getitem_ok d k) as [b E];
      [ repeat match goal with
               | H : (_ <=? _)%nat = false |- _ => apply Nat.leb_gt in H
               | H : (_ <? _)%nat = true |- _ => apply Nat.ltb_lt in H
               end; lia
      | rewrite E; cbn [bind] ]
  end.

Ltac run_flush :=
  match goal with
  | |- context [flush_line ?s] =>
      let s' := fresh "s" in
      let E := fresh "E" in
      let Hs := fresh "Hs" in
      destruct (flush_line_ok s) as (s' & E & Hs); rewrite E; cbn [bind]
  end.

Ltac static_fields :=
  unfold same_static; cbn;
  repeat match goal with H : state _ = state _ |- _ => rewrite H; clear H end;
  repeat split; reflexivity.

Ltac returns_at :=
  do 2 eexists; split; [reflexivity | split; [lia | try (right; static_fields)]].

(** A command of family A returns, moves the cursor forward by 1 to 4, and
    either is ESC @ or keeps the fields no command assigns. *)
Lemma handle_esc_sequence_ok (self : ESCPOSSimulator) (data : list Z) (i : nat) :
  exists self' i',
    handle_esc_sequence self data i = Ok (self', i') /\
    (i < i' <= i + 4)%nat /\
    (nth_error data (i + 1) = Some 0x40 \/ same_static (state self) (state self')).
Proof.
  unfold handle_esc_sequence.
  destruct (List.length data <=? i + 1)%nat eqn:L; [returns_at|].
  run_getitem.
  destruct (b =? 64) eqn:C0.
  { do 2 eexists; split; [reflexivity | split; [lia | left]].
    apply Z.eqb_eq in C0. subst b. now apply getitem_nth. }
  destruct (b =? 97).
  { destruct (i + 2 <? List.length data)%nat eqn:G; cbn [bind]; [|returns_at].
    run_flush. run_getitem. returns_at. }
  destruct (b =? 69).
  { destruct (i + 2 <? List.length data)%nat eqn:G; cbn [bind]; [|returns_at].
    run_getitem. returns_at. }
  destruct (b =? 100).
  { destruct (i + 2 <? List.length data)%nat eqn:G; cbn [bind]; [|returns_at].
    run_flush. run_getitem. returns_at. }
  destruct (b =? 36); [returns_at|].
  destruct (b =? 116).
  { destruct (i + 2 <? List.length data)%nat eqn:G; cbn [bind]; [|returns_at].
    run_getitem. returns_at. }
  destruct (b =? 33).
  { destruct (i + 2 <? List.length data)%nat eqn:G; cbn [bind]; [|returns_at].
    run_getitem. returns_at. }
  returns_at.
Qed.

(** A command of family B returns, moves the cursor forward by 1 to 3, and
    keeps the fields no command assigns. *)
Lemma handle_gs_sequence_ok (self : ESCPOSSimulator) (data : list Z) (i : nat) :
  exists self' i',
    handle_gs_sequence self data i = Ok (self', i') /\
    (i < i' <= i + 3)%nat /\
    same_static (state self) (state self').
Proof.
  unfold handle_gs_sequence.
  destruct (List.length data <=? i + 1)%nat eqn:L.
  { do 2 eexists; split; [reflexivity | split; [lia | static_fields]]. }
  run_getitem.
  destruct (b =? 86).
  { run_flush. do 2 eexists; split; [reflexivity | split; [lia | static_fields]]. }
  destruct (b =? 33).
  { destruct (i + 2 <? List.length data)%nat eqn:G; cbn [bind].
    - run_getitem.
      do 2 eexists; split; [reflexivity | split; [lia | static_fields]].
    - do 2 eexists; split; [reflexivity | split; [lia | static_fields]]. }
  do 2 eexists; split; [reflexivity | split; [lia | static_fields]].
Qed.

(** A command of family C returns, moves the cursor forward by 1 or 2, and
    changes nothing. *)
Lemma handle_fs_sequence_ok (self : ESCPOSSimulator) (data : list Z) (i : nat) :
  exists i',
    handle_fs_sequence self data i = Ok (self, i') /\ (i < i' <= i + 2)%nat.
Proof.
  unfold handle_fs_sequence.
  destruct (List.length data <=? i + 1)%nat eqn:L.
  { eexists; split; [reflexivity | lia]. }
  run_getitem.
  destruct (b =? 46); eexists; (split; [reflexivity | lia]).
Qed.

Lemma same_static_refl (st : PrinterState) : same_static st st.
Proof. unfold same_static. repeat split; reflexivity. Qed.

Lemma same_static_trans (a b c : PrinterState) :
  same_static a b -> same_static b c -> same_static a c.
Proof.
  unfold same_static. intros H1 H2.
  destruct H1 as (?&?&?&?&?&?&?&?&?), H2 as (?&?&?&?&?&?&?&?&?).
  repeat split; congruence.
Qed.

(** One iteration of the loop returns, moves the cursor forward by 1 to 4,
    and either decodes ESC @ at the cursor or keeps the fields no command
    assigns. *)
Lemma scan_step_ok (self : ESCPOSSimulator) (data : list Z) (i : nat) :
  (i < List.length data)%nat ->
  exists self' i',
    scan_step self data i = Ok (self', i') /\
    (i < i' <= i + 4)%nat /\
    (nth_error data i = Some PrinterCommand.ESC /\
     nth_error data (i + 1) = Some 0x40 \/
     same_static (state self) (state self')).
Proof.
  intros Hi. unfold scan_step.
  destruct (getitem_ok data i Hi) as [byte E]. rewrite E. cbn [bind].
  destruct (byte =? PrinterCommand.ESC) eqn:B1.
  { destruct (handle_esc_sequence_ok self data i) as (s & i' & H & Hb & Hst).
    exists s, i'. split; [exact H | split; [exact Hb|]].
    destruct Hst as [Hst|Hst]; [left | now right].
    apply Z.eqb_eq in B1. subst byte. split; [now apply getitem_nth | exact Hst]. }
  destruct (byte =? PrinterCommand.GS).
  { destruct (handle_gs_sequence_ok self data i) as (s & i' & H & Hb & Hst).
    exists s, i'. split; [exact H | split; [lia | now right]]. }
  destruct (byte =? PrinterCommand.FS).
  { destruct (handle_fs_sequence_ok self data i) as (i' & H & Hb).
    exists self, i'. split; [exact H | split; [lia | right; apply same_static_refl]]. }
  destruct (byte =? PrinterCommand.LF).
  { run_flush. returns_at. }
  destruct (byte =? PrinterCommand.CR); [returns_at|].
  destruct ((32 <=? byte) && (byte <=? 126)); returns_at.
Qed.

(** ** The scan loop *)

Section ScanInvariant.

Variable data : list Z.
Variable P : ESCPOSSimulator -> Prop.

Hypothesis P_step :
  forall self i self' i',
    (i < List.length data)%nat -> P self ->
    scan_step self data i = Ok (self', i') -> P self'.

(** With as many iterations at hand as bytes remain, the loop returns
    with the cursor at or past the end, and a property every iteration
    keeps holds on exit. *)
Lemma scan_invariant (fuel : nat) :
  forall self i,
    P self -> (List.length data - i <= fuel)%nat ->
    exists self' i',
      scan fuel self data i = Returned (self', i') /\
      (List.length data <= i')%nat /\ (i <= i')%nat /\ P self'.
Proof.
  induction fuel as [|fuel IH]; intros self i HP Hf; simpl.
  - destruct (i <? List.length data)%nat eqn:L.
    + apply Nat.ltb_lt in L. lia.
    + apply Nat.ltb_ge in L. exists self, i. auto.
  - destruct (i <? List.length data)%nat eqn:L.
    + apply Nat.ltb_lt in L.
      destruct (scan_step_ok self data i L) as (s & i' & E & Hb & _).
      rewrite E.
      destruct (IH s i') as (s' & j & E' & Hj & Hij & HP');
        [eapply P_step; eauto | lia |].
      exists s', j. repeat split; auto. lia.
    + apply Nat.ltb_ge in L. exists self, i. auto.
Qed.

End ScanInvariant.

Lemma scan_returns (self : ESCPOSSimulator) (data : list Z) :
  exists self' i',
    scan (List.length data) self data 0 = Returned (self', i') /\
    (List.length data <= i')%nat.
Proof.
  destruct (scan_invariant data (fun _ => True) (fun _ _ _ _ _ _ _ => I)
              (List.length data) self 0%nat I) as (s & i & E & H & _);
    [lia | eauto].
Qed.

(** More iterations at hand do not change what the loop returns. *)
Lemma scan_fuel_mono (fuel : nat) :
  forall fuel' self data i r,
    scan fuel self data i = Returned r -> (fuel <= fuel')%nat ->
    scan fuel' self data i = Returned r.
Proof.
  induction fuel as [|fuel IH]; intros fuel' self data i r H Hle.
  - simpl in H. destruct fuel'; simpl;
      destruct (i <? List.length data)%nat; congruence.
  - destruct fuel' as [|fuel']; [lia|]. simpl in *.
    destruct (i <? List.length data)%nat; [|exact H].
    destruct (scan_step self data i) as [[s i']|e]; [|discriminate].
    apply IH; [exact H | lia].
Qed.

(** The intervals of the iterations start at or after the cursor. *)
Lemma scan_spans_after (fuel : nat) :
  forall self data i k,
    (k < i)%nat -> filter (in_span k) (scan_spans fuel self data i) = [].
Proof.
  induction fuel as [|fuel IH]; intros self data i k Hk; simpl.
  - now destruct (i <? List.length data)%nat.
  - destruct (i <? List.length data)%nat eqn:L; [|reflexivity].
    apply Nat.ltb_lt in L.
    destruct (scan_step_ok self data i L) as (s & i' & E & Hb & _).
    rewrite E. simpl. unfold in_span at 1. simpl.
    replace (i <=? k)%nat with false by (symmetry; apply Nat.leb_gt; lia).
    simpl. apply IH. lia.
Qed.

(** Every byte position lies in the interval of exactly one iteration. *)
Lemma scan_spans_cover (fuel : nat) :
  forall self data i k,
    (List.length data - i <= fuel)%nat ->
    (i <= k < List.length data)%nat ->
    List.length (filter (in_span k) (scan_spans fuel self data i)) = 1%nat.
Proof.
  induction fuel as [|fuel IH]; intros self data i k Hf Hk; [lia|].
  simpl.
  destruct (i <? List.length data)%nat eqn:L;
    [apply Nat.ltb_lt in L | apply Nat.ltb_ge in L; lia].
  destruct (scan_step_ok self data i L) as (s & i' & E & Hb & _).
  rewrite E. simpl. unfold in_span at 1. simpl.
  replace (i <=? k)%nat with true by (symmetry; apply Nat.leb_le; lia).
  simpl.
  destruct (k <? i')%nat eqn:K.
  - apply Nat.ltb_lt in K. simpl. now rewrite scan_spans_after.
  - apply Nat.ltb_ge in K. apply IH; lia.
Qed.

(** ** The display *)

Lemma print_buffer_ok (self : ESCPOSSimulator) :
  exists self' out,
    print_buffer self = Ok (self', out) /\
    state self' = state self /\
    port self' = port self /\
    buffer self' = [] /\
    current_line self' = "".
Proof.
  unfold print_buffer.
  destruct (negb (list_truthy (buffer self))
            && negb (str_truthy (current_line self))) eqn:T.
  - apply andb_prop in T. destruct T as [Tb Tl].
    exists self, []. repeat split.
    + destruct (buffer self); [reflexivity | discriminate].
    + destruct (current_line self); [reflexivity | discriminate].
  - destruct (flush_line_spec self) as (s & E & Hs & Hp & Hl & _).
    rewrite E. cbn [bind]. do 2 eexists. split; [reflexivity|].
    cbn. auto.
Qed.

Lemma process_data_returns (self : ESCPOSSimulator) (data : list Z) :
  exists s i self' out,
    scan (List.length data) self data 0 = Returned (s, i) /\
    print_buffer s = Ok (self', out) /\
    process_data self data = Returned (self', out).
Proof.
  destruct (scan_returns self data) as (s & i & E & _).
  destruct (print_buffer_ok s) as (self' & out & P & _).
  exists s, i, self', out. unfold process_data. now rewrite E, P.
Qed.

(** ** Safety *)

(** C1. For every byte sequence [process_data] runs to completion and
    raises nothing: neither [IndexError] (a read [data[k]] with [k] past
    the end) nor [ZeroDivisionError].  The same holds for each command
    family called at any cursor, and for one iteration of the loop at any
    cursor inside the data. *)
Theorem process_data_never_raises (self : ESCPOSSimulator) (data : list Z) :
  (exists self' out, process_data self data = Returned (self', out)) /\
  (forall s i, exists r, handle_esc_sequence s data i = Ok r) /\
  (forall s i, exists r, handle_gs_sequence s data i = Ok r) /\
  (forall s i, exists r, handle_fs_sequence s data i = Ok r) /\
  (forall s i, (i < List.length data)%nat -> exists r, scan_step s data i = Ok r).
Proof.
  split; [|split; [|split; [|split]]].
  - destruct (process_data_returns self data) as (_ & _ & s' & out & _ & _ & H).
    eauto.
  - intros s i. destruct (handle_esc_sequence_ok s data i) as (s' & i' & H & _).
    eauto.
  - intros s i. destruct (handle_gs_sequence_ok s data i) as (s' & i' & H & _).
    eauto.
  - intros s i. destruct (handle_fs_sequence_ok s data i) as (i' & H & _).
    eauto.
  - intros s i Hi. destruct (scan_step_ok s data i Hi) as (s' & i' & H & _).
    eauto.
Qed.

(** ** Termination *)

(** C2. Every iteration of the scan loop returns a cursor strictly greater
    than the one it was entered with; run with [len(data)] iterations at
    hand the loop exits normally with the cursor at or past the end of the
    data, and more iterations at hand give the same result; every byte
    position lies in the interval [i, i') of exactly one iteration. *)
Theorem scan_terminates (self : ESCPOSSimulator) (data : list Z) :
  (forall s i, (i < List.length data)%nat ->
     exists s' i', scan_step s data i = Ok (s', i') /\ (i < i')%nat) /\
  (exists self' i',
     scan (List.length data) self data 0 = Returned (self', i') /\
     (List.length data <= i')%nat /\
     forall fuel, (List.length data <= fuel)%nat ->
       scan fuel self data 0 = Returned (self', i')) /\
  (forall k, (k < List.length data)%nat ->
     List.length
       (filter (in_span k) (scan_spans (List.length data) self data 0)) = 1%nat).
Proof.
  split; [|split].
  - intros s i Hi.
    destruct (scan_step_ok s data i Hi) as (s' & i' & H & Hb & _).
    exists s', i'. split; [exact H | lia].
  - destruct (scan_returns self data) as (s' & i' & E & Hi).
    exists s', i'. repeat split; try assumption.
    intros fuel Hf. now apply scan_fuel_mono with (fuel := List.length data).
  - intros k Hk. apply scan_spans_cover; lia.
Qed.

(** ** The initialize command *)

Lemma handle_esc_initialize (self : ESCPOSSimulator) (data : list Z) (i : nat) :
  nth_error data (i + 1) = Some 0x40 ->
  handle_esc_sequence self data i = Ok (with_state PrinterState_new self, (i + 2)%nat).
Proof.
  intros H. unfold handle_esc_sequence.
  assert (L : (i + 1 < List.length data)%nat)
    by (apply nth_error_Some; congruence).
  apply Nat.leb_gt in L. rewrite L.
  apply getitem_nth in H. rewrite H. reflexivity.
Qed.

Lemma scan_step_initialize (self : ESCPOSSimulator) (data : list Z) (i : nat) :
  nth_error data i = Some PrinterCommand.ESC ->
  nth_error data (i + 1) = Some 0x40 ->
  scan_step self data i = Ok (with_state PrinterState_new self, (i + 2)%nat).
Proof.
  intros H0 H1. unfold scan_step.
  apply getitem_nth in H0. rewrite H0. cbn [bind].
  rewrite Z.eqb_refl. now apply handle_esc_initialize.
Qed.

(** C4. Decoding ESC @ at any cursor, from any engine, puts alignment,
    emphasis, the width and height doubling, the font size and every other
    style flag at their defaults and moves the cursor by exactly 2; the
    buffer and the current line are not touched. *)
Theorem initialize_resets_formatting
  (self : ESCPOSSimulator) (data : list Z) (i : nat) :
  nth_error data i = Some PrinterCommand.ESC ->
  nth_error data (i + 1) = Some 0x40 ->
  exists self',
    scan_step self data i = Ok (self', (i + 2)%nat) /\
    handle_esc_sequence self data i = Ok (self', (i + 2)%nat) /\
    alignment (state self') = 0 /\
    emphasized (state self') = false /\
    double_width (state self') = false /\
    double_height (state self') = false /\
    font_size (state self') = 1 /\
    bold (state self') = false /\
    underline (state self') = false /\
    white_on_black (state self') = false /\
    upside_down (state self') = false /\
    double_strike (state self') = false /\
    font_b (state self') = false /\
    italic (state self') = false /\
    char_spacing (state self') = 0 /\
    line_spacing (state self') = 30 /\
    code_page (state self') = 0 /\
    buffer self' = buffer self /\
    current_line self' = current_line self.
Proof.
  intros H0 H1. exists (with_state PrinterState_new self).
  split; [now apply scan_step_initialize|].
  split; [now apply handle_esc_initialize|].
  cbn. repeat split; reflexivity.
Qed.

(** C9. ESC @ installs a whole fresh [PrinterState()]: the line width is 48
    afterwards whatever it was before. *)
Theorem initialize_resets_chars_per_line
  (self : ESCPOSSimulator) (data : list Z) (i : nat) :
  nth_error data i = Some PrinterCommand.ESC ->
  nth_error data (i + 1) = Some 0x40 ->
  exists self',
    scan_step self data i = Ok (self', (i + 2)%nat) /\
    state self' = PrinterState_new /\
    chars_per_line (state self') = 48.
Proof.
  intros H0 H1. exists (with_state PrinterState_new self).
  split; [now apply scan_step_initialize|].
  split; reflexivity.
Qed.

(** ** Truncated justification command *)

(** C5 as written fails: on the two bytes ESC 'a' the cursor returned is
    not 2. *)
Lemma truncated_justification_cursor_not_2 :
  ~ (forall self : ESCPOSSimulator,
       exists self',
         scan_step self data_truncated_justification 0 = Ok (self', 2%nat) /\
         alignment (state self') = alignment (state self)).
Proof.
  intros H. destruct (H sim0) as (s & E & _).
  vm_compute in E. discriminate.
Qed.

(** C5 (amended). On an input made of the two bytes ESC 'a' alone, the
    decoder reads no byte past the end and returns the engine unchanged
    with the cursor at 3, the full length of the command and one past the
    end of the input; the scan loop then exits, and after [process_data]
    the alignment is what it was. *)
Theorem truncated_justification_keeps_alignment (self : ESCPOSSimulator) :
  handle_esc_sequence self data_truncated_justification 0 = Ok (self, 3%nat) /\
  scan_step self data_truncated_justification 0 = Ok (self, 3%nat) /\
  scan 2 self data_truncated_justification 0 = Returned (self, 3%nat) /\
  exists self' out,
    process_data self data_truncated_justification = Returned (self', out) /\
    alignment (state self') = alignment (state self).
Proof.
  assert (Hs : scan 2 self data_truncated_justification 0 = Returned (self, 3%nat))
    by reflexivity.
  repeat split; try reflexivity.
  destruct (print_buffer_ok self) as (s' & out & P & Hst & _).
  exists s', out. unfold process_data.
  change (List.length data_truncated_justification) with 2%nat.
  rewrite Hs, P. split; [reflexivity | now rewrite Hst].
Qed.

(** ** Character size *)

Lemma land_7_mod (n : Z) : Z.land n 7 = n mod 8.
Proof. change 7 with (Z.ones 3). now rewrite Z.land_ones by lia. Qed.

Lemma field_bits_4_6 (n : Z) : Z.shiftr (Z.land n 0x70) 4 = (n / 16) mod 8.
Proof.
  rewrite Z.shiftr_land. change (Z.shiftr 0x70 4) with 7.
  rewrite land_7_mod. now rewrite Z.shiftr_div_pow2 by lia.
Qed.

Lemma handle_gs_char_size (self : ESCPOSSimulator) (data : list Z) (i : nat) (n : Z) :
  nth_error data (i + 1) = Some 0x21 ->
  nth_error data (i + 2) = Some n ->
  handle_gs_sequence self data i
  = Ok (upd_state (set_font_size (Z.max ((n / 16) mod 8 + 1) (n mod 8 + 1))) self,
        (i + 3)%nat).
Proof.
  intros H1 H2. unfold handle_gs_sequence.
  assert (L : (i + 2 < List.length data)%nat)
    by (apply nth_error_Some; congruence).
  replace (List.length data <=? i + 1)%nat with false
    by (symmetry; apply Nat.leb_gt; lia).
  apply getitem_nth in H1, H2. rewrite H1. cbn [bind].
  change (33 =? 86) with false. change (33 =? 33) with true. cbv iota.
  apply Nat.ltb_lt in L. rewrite L, H2. cbn [bind].
  now rewrite field_bits_4_6, land_7_mod.
Qed.

(** C6 as written fails at n = 0x08: the low nibble is 8, so the font
    size by nibbles is 9, and the decoder sets 1. *)
Lemma char_size_low_nibble_8 :
  exists self',
    scan_step sim0 (data_char_size 0x08) 0 = Ok (self', 3%nat) /\
    font_size (state self') = 1 /\
    font_size_spec 0x08 = 9 /\
    font_size (state self') <> font_size_spec 0x08.
Proof. eexists. repeat split. discriminate. Qed.

Lemma testbit_digit (n k : Z) :
  0 <= k -> (n / 2 ^ k) mod 2 = if Z.testbit n k then 1 else 0.
Proof.
  intros Hk. destruct (Z.testbit n k) eqn:T.
  - now apply Z.testbit_true.
  - now apply Z.testbit_false.
Qed.

(** The low nibble is the field of bits 0-2 plus 8 times bit 3. *)
Lemma low_nibble_bit3 (n : Z) :
  n mod 16 = n mod 8 + (if Z.testbit n 3 then 8 else 0).
Proof.
  pose proof (testbit_digit n 3 ltac:(lia)) as B. change (2 ^ 3) with 8 in B.
  pose proof (Z.div_mod n 16 ltac:(lia)) as D16.
  pose proof (Z.div_mod n 8 ltac:(lia)) as D8.
  pose proof (Z.div_mod (n / 8) 2 ltac:(lia)) as D2.
  rewrite Z.div_div in D2 by lia. change (8 * 2) with 16 in D2.
  pose proof (Z.mod_pos_bound n 16 ltac:(lia)).
  pose proof (Z.mod_pos_bound n 8 ltac:(lia)).
  destruct (Z.testbit n 3); lia.
Qed.

(** For a byte, the high nibble is the field of bits 4-6 plus 8 times
    bit 7. *)
Lemma high_nibble_bit7 (n : Z) :
  0 <= n < 256 ->
  n / 16 = (n / 16) mod 8 + (if Z.testbit n 7 then 8 else 0).
Proof.
  intros Hn.
  pose proof (testbit_digit n 7 ltac:(lia)) as B. change (2 ^ 7) with 128 in B.
  assert (H16 : 0 <= n / 16 < 16)
    by (split; [apply Z.div_pos; lia | apply Z.div_lt_upper_bound; lia]).
  assert (H128 : 0 <= n / 128 < 2)
    by (split; [apply Z.div_pos; lia | apply Z.div_lt_upper_bound; lia]).
  rewrite Z.mod_small in B by exact H128.
  pose proof (Z.div_mod (n / 16) 8 ltac:(lia)) as D.
  rewrite Z.div_div in D by lia. change (16 * 8) with 128 in D.
  pose proof (Z.mod_pos_bound (n / 16) 8 ltac:(lia)).
  destruct (Z.testbit n 7); lia.
Qed.

(** The font size by 3-bit fields is the font size by nibbles exactly
    when bits 3 and 7 of the byte are clear. *)
Lemma three_bit_fields_vs_nibbles (n : Z) :
  0 <= n < 256 ->
  Z.max ((n / 16) mod 8 + 1) (n mod 8 + 1) = font_size_spec n <->
  Z.testbit n 3 = false /\ Z.testbit n 7 = false.
Proof.
  intros Hn. unfold font_size_spec, high_nibble, low_nibble.
  rewrite Z.shiftr_div_pow2 by lia. change (2 ^ 4) with 16.
  change 15 with (Z.ones 4). rewrite Z.land_ones by lia. change (2 ^ 4) with 16.
  pose proof (low_nibble_bit3 n) as Lo.
  pose proof (high_nibble_bit7 n Hn) as Hi.
  pose proof (Z.mod_pos_bound (n / 16) 8 ltac:(lia)).
  pose proof (Z.mod_pos_bound n 8 ltac:(lia)).
  destruct (Z.testbit n 3), (Z.testbit n 7); cbv iota in Lo, Hi;
    (split; [intros E | intros [E3 E7]]);
    try discriminate; try (split; reflexivity); try lia; exfalso; lia.
Qed.

(** C6 (amended). For every argument byte n in 0..255, GS ! n sets
    [font_size] to the maximum of the width and height magnifications,
    where the width magnification is the 3-bit field in bits 4-6 of n plus
    1 and the height magnification is the 3-bit field in bits 0-2 plus 1;
    bits 3 and 7 are ignored.  The result is in 1..8, and it is the
    nibble-based value if and only if bits 3 and 7 of n are both clear. *)
Theorem char_size_three_bit_fields
  (self : ESCPOSSimulator) (data : list Z) (i : nat) (n : Z) :
  0 <= n < 256 ->
  nth_error data i = Some PrinterCommand.GS ->
  nth_error data (i + 1) = Some 0x21 ->
  nth_error data (i + 2) = Some n ->
  exists self',
    scan_step self data i = Ok (self', (i + 3)%nat) /\
    font_size (state self') = Z.max ((n / 16) mod 8 + 1) (n mod 8 + 1) /\
    1 <= font_size (state self') <= 8 /\
    (font_size (state self') = font_size_spec n <->
     Z.testbit n 3 = false /\ Z.testbit n 7 = false) /\
    same_static (state self) (state self') /\
    alignment (state self') = alignment (state self) /\
    buffer self' = buffer self /\
    current_line self' = current_line self.
Proof.
  intros Hn H0 H1 H2.
  exists (upd_state (set_font_size (Z.max ((n / 16) mod 8 + 1) (n mod 8 + 1))) self).
  split.
  { unfold scan_step. apply getitem_nth in H0. rewrite H0. cbn [bind].
    change (PrinterCommand.GS =? PrinterCommand.ESC) with false.
    rewrite Z.eqb_refl. cbv iota. now apply handle_gs_char_size. }
  cbn [upd_state with_state state set_font_size font_size alignment buffer
       current_line].
  split; [reflexivity|]. split.
  { pose proof (Z.mod_pos_bound (n / 16) 8 ltac:(lia)).
    pose proof (Z.mod_pos_bound n 8 ltac:(lia)). lia. }
  split; [now apply three_bit_fields_vs_nibbles|].
  split; [static_fields | auto].
Qed.

Lemma char_size_three_bit_fields_witness :
  exists self',
    scan_step sim_styled (data_char_size 0x21) 0 = Ok (self', 3%nat) /\
    font_size (state self') = 3.
Proof.
  destruct (char_size_three_bit_fields sim_styled (data_char_size 0x21) 0 0x21)
    as (s & H & Hf & _); [lia | reflexivity | reflexivity | reflexivity |].
  exists s. split; [exact H | exact Hf].
Defined.

Lemma initialize_resets_formatting_witness :
  exists self',
    scan_step sim_styled data_initialize 1 = Ok (self', 3%nat) /\
    alignment (state self') = 0 /\
    emphasized (state self') = false /\
    font_size (state self') = 1.
Proof.
  destruct (initialize_resets_formatting sim_styled data_initialize 1
              eq_refl eq_refl)
    as (s & H & _ & Ha & He & _ & _ & Hf & _).
  exists s. repeat split; assumption.
Defined.

Lemma initialize_resets_chars_per_line_witness :
  chars_per_line (state sim_styled) = 32 /\
  exists self',
    scan_step sim_styled data_initialize 1 = Ok (self', 3%nat) /\
    chars_per_line (state self') = 48.
Proof.
  split; [reflexivity|].
  destruct (initialize_resets_chars_per_line sim_styled data_initialize 1
              eq_refl eq_refl)
    as (s & H & _ & Hc).
  exists s. split; assumption.
Defined.

(** ** Cut paper *)

Lemma str_repeat_char_length (c : ascii) (n : nat) :
  String.length (str_repeat (String c "") n) = n.
Proof. induction n as [|n IH]; simpl; congruence. Qed.

(** C7. GS V flushes the current line and then appends exactly one line
    made of [chars_per_line] characters '-' to the buffer; the line
    depends on no other field of the state.  The cursor moves by 3 whether
    or not a third byte is present. *)
Theorem cut_paper_appends_separator
  (self : ESCPOSSimulator) (data : list Z) (i : nat) :
  nth_error data i = Some PrinterCommand.GS ->
  nth_error data (i + 1) = Some 0x56 ->
  let sep := str_repeat "-" (Z.to_nat (chars_per_line (state self))) in
  exists flushed self',
    flush_line self = Ok flushed /\
    scan_step self data i = Ok (self', (i + 3)%nat) /\
    buffer self' = (buffer flushed ++ [sep])%list /\
    String.length sep = Z.to_nat (chars_per_line (state self)) /\
    (current_line self = "" -> buffer flushed = buffer self) /\
    (current_line self <> "" ->
     exists r, format_line self (current_line self) = Ok r /\
               buffer flushed = (buffer self ++ [r])%list) /\
    current_line self' = "" /\
    state self' = state self.
Proof.
  intros H0 H1 sep.
  destruct (flush_line_spec self) as (fl & E & Hs & Hp & Hl & Hb0 & Hb1).
  exists fl, (with_buffer (buffer fl ++ [sep])%list fl).
  split; [exact E|]. split.
  { unfold scan_step. apply getitem_nth in H0. rewrite H0. cbn [bind].
    change (PrinterCommand.GS =? PrinterCommand.ESC) with false.
    rewrite Z.eqb_refl. cbv iota. unfold handle_gs_sequence.
    assert (L : (i + 1 < List.length data)%nat)
      by (apply nth_error_Some; congruence).
    apply Nat.leb_gt in L. rewrite L.
    apply getitem_nth in H1. rewrite H1. cbn [bind].
    change (86 =? 86) with true. cbv iota.
    rewrite E. cbn [bind]. unfold str_mul, sep. now rewrite Hs. }
  cbn [with_buffer buffer current_line state].
  split; [reflexivity|].
  split; [apply str_repeat_char_length|].
  auto.
Qed.

Lemma cut_paper_appends_separator_witness :
  exists self',
    scan_step sim_styled data_cut 0 = Ok (self', 3%nat) /\
    List.length (buffer self') = 3%nat /\
    last (buffer self') "" = "--------------------------------".
Proof.
  destruct (cut_paper_appends_separator sim_styled data_cut 0 eq_refl eq_refl)
    as (fl & s & E & H & Hb & _).
  exists s. split; [exact H|].
  rewrite Hb. vm_compute in E. injection E as <-. split; reflexivity.
Defined.

(** ** Persistence of the state *)

Lemma has_initialize_false (data : list Z) :
  has_initialize data = false ->
  forall i, ~ (nth_error data i = Some PrinterCommand.ESC /\
               nth_error data (i + 1) = Some 0x40).
Proof.
  induction data as [|a rest IH]; intros H i [H0 H1].
  - destruct i; discriminate.
  - simpl in H. destruct rest as [|b rest'].
    + destruct i as [|[|i]]; simpl in *; discriminate.
    + apply orb_false_elim in H. destruct H as [Hab Hrest].
      destruct i as [|i].
      * simpl in H0, H1. injection H0 as ->. injection H1 as ->.
        discriminate.
      * apply (IH Hrest i). split; assumption.
Qed.

Lemma has_introducer_false (data : list Z) (i : nat) (b : Z) :
  has_introducer data = false ->
  nth_error data i = Some b ->
  (b =? PrinterCommand.ESC) = false /\ (b =? PrinterCommand.GS) = false.
Proof.
  unfold has_introducer. intros H Hb.
  apply nth_error_In in Hb.
  destruct ((b =? PrinterCommand.ESC) || (b =? PrinterCommand.GS)) eqn:E.
  - assert (existsb (fun b => (b =? PrinterCommand.ESC) || (b =? PrinterCommand.GS))
              data = true) by (apply existsb_exists; eauto).
    congruence.
  - now apply orb_false_elim in E.
Qed.

(** An iteration on a byte that opens neither family A nor family B leaves
    the state as it is. *)
Lemma scan_step_plain
  (self : ESCPOSSimulator) (data : list Z) (i : nat) (b : Z) self' i' :
  nth_error data i = Some b ->
  (b =? PrinterCommand.ESC) = false ->
  (b =? PrinterCommand.GS) = false ->
  scan_step self data i = Ok (self', i') ->
  state self' = state self.
Proof.
  intros Hb E1 E2. unfold scan_step.
  apply getitem_nth in Hb. rewrite Hb. cbn [bind]. rewrite E1, E2.
  destruct (b =? PrinterCommand.FS).
  { destruct (handle_fs_sequence_ok self data i) as (j & H & _).
    rewrite H. now intros [= <- _]. }
  destruct (b =? PrinterCommand.LF).
  { run_flush. now intros [= <- _]. }
  destruct (b =? PrinterCommand.CR); [now intros [= <- _]|].
  destruct ((32 <=? b) && (b <=? 126)); now intros [= <- _].
Qed.

Lemma process_data_state (self : ESCPOSSimulator) (data : list Z) :
  exists s i self' out,
    scan (List.length data) self data 0 = Returned (s, i) /\
    process_data self data = Returned (self', out) /\
    state self' = state s.
Proof.
  destruct (process_data_returns self data) as (s & i & s' & out & E & P & H).
  destruct (print_buffer_ok s) as (s2 & out2 & P2 & Hst & _).
  rewrite P in P2. injection P2 as <- <-.
  exists s, i, s', out. auto.
Qed.

(** C8. For two batches processed in succession by one engine, the second
    is decoded starting from the very state the decoding loop of the first
    ended with: neither the display at the end of a batch nor the start of
    the next one touches the state.  A batch with no ESC and no GS byte
    leaves the whole state unchanged, and a batch with no ESC @ pair leaves
    unchanged every field that no other command assigns, so only ESC @
    puts those fields back at their defaults. *)
Theorem state_persists_across_batches
  (self : ESCPOSSimulator) (data1 data2 : list Z) :
  exists s1 i1 self1 out1 s2 i2 self2 out2,
    scan (List.length data1) self data1 0 = Returned (s1, i1) /\
    process_data self data1 = Returned (self1, out1) /\
    state self1 = state s1 /\
    scan (List.length data2) self1 data2 0 = Returned (s2, i2) /\
    process_data self1 data2 = Returned (self2, out2) /\
    state self2 = state s2 /\
    (has_introducer data2 = false -> state self2 = state s1) /\
    (has_initialize data2 = false -> same_static (state s1) (state self2)).
Proof.
  destruct (process_data_state self data1)
    as (s1 & i1 & self1 & out1 & E1 & P1 & H1).
  destruct (process_data_state self1 data2)
    as (s2 & i2 & self2 & out2 & E2 & P2 & H2).
  exists s1, i1, self1, out1, s2, i2, self2, out2.
  repeat (split; [assumption|]). split.
  - intros Hno.
    destruct (scan_invariant data2 (fun s => state s = state s1)) with
      (fuel := List.length data2) (self := self1) (i := 0%nat)
      as (s & j & E & _ & _ & HP); [|assumption|lia|].
    + intros s i s' i' Hi HP Hstep.
      destruct (nth_error data2 i) as [b|] eqn:Hb;
        [|apply nth_error_None in Hb; lia].
      destruct (has_introducer_false data2 i b Hno Hb) as [Ha Hg].
      rewrite (scan_step_plain s data2 i b s' i' Hb Ha Hg Hstep). exact HP.
    + rewrite E2 in E. injection E as <- <-. congruence.
  - intros Hno.
    destruct (scan_invariant data2 (fun s => same_static (state s1) (state s)))
      with (fuel := List.length data2) (self := self1) (i := 0%nat)
      as (s & j & E & _ & _ & HP); [| |lia|].
    + intros s i s' i' Hi HP Hstep.
      destruct (scan_step_ok s data2 i Hi) as (t & k & Ht & _ & [Hinit|Hst]).
      * exfalso. exact (has_initialize_false data2 Hno i Hinit).
      * rewrite Ht in Hstep. injection Hstep as <- <-.
        eapply same_static_trans; eassumption.
    + rewrite H1. apply same_static_refl.
    + rewrite E2 in E. injection E as <- <-. now rewrite H2.
Qed.

(** ** The end of a batch *)

Lemma print_buffer_lines (s : ESCPOSSimulator) :
  exists self' out lines,
    print_buffer s = Ok (self', out) /\
    (current_line s = "" -> lines = buffer s) /\
    (current_line s <> "" ->
     exists r, format_line s (current_line s) = Ok r /\
               lines = (buffer s ++ [r])%list) /\
    (lines = [] -> out = []) /\
    (lines <> [] -> out = receipt_box (chars_per_line (state s) + 2) lines).
Proof.
  unfold print_buffer.
  destruct (negb (list_truthy (buffer s))
            && negb (str_truthy (current_line s))) eqn:T.
  - apply andb_prop in T. destruct T as [Tb Tl].
    assert (Hb : buffer s = []) by (destruct (buffer s); [reflexivity | discriminate]).
    assert (Hl : current_line s = "")
      by (destruct (current_line s); [reflexivity | discriminate]).
    exists s, [], []. repeat split; auto; congruence.
  - destruct (flush_line_spec s) as (fl & E & Hs & Hp & Hl & Hb0 & Hb1).
    rewrite E. cbn [bind]. do 2 eexists. exists (buffer fl).
    split; [reflexivity|]. rewrite Hs.
    split; [exact Hb0|]. split; [exact Hb1|]. split; [|reflexivity].
    intros Hnil. exfalso.
    destruct (current_line s) as [|c rest] eqn:Hc.
    + rewrite Hb0 in Hnil by reflexivity. rewrite Hnil in T. discriminate.
    + destruct Hb1 as (r & _ & Hr); [discriminate|].
      rewrite Hr in Hnil. now apply app_eq_nil in Hnil as [_ ?].
Qed.

(** [strip] leaves something exactly when some character is not white
    space. *)
Lemma lstrip_visible (s : string) :
  existsb (fun c => negb (isspace c)) (list_ascii_of_string (lstrip s))
  = existsb (fun c => negb (isspace c)) (list_ascii_of_string s).
Proof.
  induction s as [|c s IH]; [reflexivity|]. cbn [lstrip].
  destruct (isspace c) eqn:W; [|reflexivity].
  cbn [list_ascii_of_string existsb]. now rewrite W, IH.
Qed.

Lemma rstrip_truthy (s : string) :
  str_truthy (rstrip s)
  = existsb (fun c => negb (isspace c)) (list_ascii_of_string s).
Proof.
  induction s as [|c s IH]; [reflexivity|].
  cbn [rstrip list_ascii_of_string existsb]. rewrite <- IH.
  destruct (rstrip s); [|now rewrite orb_true_r].
  now destruct (isspace c).
Qed.

Lemma strip_truthy (s : string) :
  str_truthy (strip s)
  = existsb (fun c => negb (isspace c)) (list_ascii_of_string s).
Proof. unfold strip. now rewrite rstrip_truthy, lstrip_visible. Qed.

(** What [print_buffer] prints, written out: the title, the top border,
    one row per line, the bottom border. *)
Lemma receipt_box_rows (width : Z) (lines : list string) :
  receipt_box width lines
  = String (ascii_of_nat 10) "🧾 Receipt Output:"
    :: ("┌" ++ str_repeat "─" (Z.to_nat width) ++ "┐")
    :: (map (fun line =>
               if existsb (fun c => negb (isspace c)) (list_ascii_of_string line)
               then ("│ " ++ line ++ " │")%string
               else ("│" ++ str_repeat " " (Z.to_nat width) ++ "│")%string)
          lines
        ++ [("└" ++ str_repeat "─" (Z.to_nat width) ++ "┘")%string])%list.
Proof.
  unfold receipt_box. cbn [app]. do 3 f_equal.
  apply map_ext. intros line. unfold receipt_row.
  now rewrite strip_truthy.
Qed.

(** C10. After every call of [process_data] the current line and the buffer
    of the engine are both empty.  The lines of the batch are those
    buffered by the decoding loop followed, when text is pending at the end
    of the batch, by that text rendered with the state at the end of the
    batch.  With no line at all nothing is printed; otherwise what is
    printed is the title, the top border, one row per line in order, and
    the bottom border, the row of a line being the line itself between
    "│ " and " │" when it has a character that is not white space, and
    [chars_per_line + 2] spaces between two bars when it has none. *)
Theorem process_data_drains_engine (self : ESCPOSSimulator) (data : list Z) :
  exists s i self' out lines,
    scan (List.length data) self data 0 = Returned (s, i) /\
    process_data self data = Returned (self', out) /\
    current_line self' = "" /\
    buffer self' = [] /\
    state self' = state s /\
    (current_line s = "" -> lines = buffer s) /\
    (current_line s <> "" ->
     exists r, format_line s (current_line s) = Ok r /\
               lines = (buffer s ++ [r])%list) /\
    (lines = [] -> out = []) /\
    (lines <> [] ->
     out
     = String (ascii_of_nat 10) "🧾 Receipt Output:"
       :: ("┌" ++ str_repeat "─" (Z.to_nat (chars_per_line (state s) + 2))
           ++ "┐")
       :: (map (fun line =>
                  if existsb (fun c => negb (isspace c))
                       (list_ascii_of_string line)
                  then ("│ " ++ line ++ " │")%string
                  else ("│"
                        ++ str_repeat " "
                             (Z.to_nat (chars_per_line (state s) + 2))
                        ++ "│")%string)
             lines
           ++ [("└"
                ++ str_repeat "─" (Z.to_nat (chars_per_line (state s) + 2))
                ++ "┘")%string])%list).
Proof.
  destruct (process_data_returns self data) as (s & i & s' & out & E & P & H).
  destruct (print_buffer_ok s) as (s2 & out2 & P2 & Hst & _ & Hb & Hl).
  rewrite P in P2. injection P2 as <- <-.
  destruct (print_buffer_lines s) as (s3 & out3 & lines & P3 & L0 & L1 & L2 & L3).
  rewrite P in P3. injection P3 as <- <-.
  exists s, i, s', out, lines. repeat (split; [assumption|]).
  intros Hne. rewrite (L3 Hne). apply receipt_box_rows.
Qed.

(** ** Layout of a line *)

Lemma append_empty_r (s : string) : s ++ "" = s.
Proof. induction s as [|c s IH]; simpl; congruence. Qed.

Lemma land_land_1 (a b : Z) :
  Z.land (Z.land a b) 1 = if Z.odd a && Z.odd b then 1 else 0.
Proof.
  change 1 with (Z.ones 1) at 1. rewrite Z.land_ones by lia.
  change (2 ^ 1) with 2. rewrite Zmod_odd.
  rewrite <- !Z.bit0_odd, Z.land_spec. reflexivity.
Qed.

Lemma odd_half (m : Z) : m = 2 * (m / 2) + (if Z.odd m then 1 else 0).
Proof.
  rewrite <- Zmod_odd. apply Z.div_mod. lia.
Qed.

(** [center] as two runs of spaces around the text: the margin is split
    evenly, and an odd margin gives its extra space to the right when the
    width is even and to the left when the width is odd. *)
Lemma center_pads (text : string) (w : Z) :
  exists l r : nat,
    center text w = str_repeat " " l ++ text ++ str_repeat " " r /\
    (l + r)%nat = Z.to_nat (w - len text) /\
    (l <= r + 1)%nat /\ (r <= l + 1)%nat /\
    (Z.even w = true -> (l <= r)%nat) /\
    (Z.odd w = true -> (r <= l)%nat).
Proof.
  unfold center. destruct (len text >=? w) eqn:G.
  - exists 0%nat, 0%nat. simpl. rewrite append_empty_r.
    apply Z.geb_le in G. repeat split; lia.
  - rewrite Z.geb_leb in G. apply Z.leb_gt in G.
    set (marg := w - len text) in *.
    rewrite land_land_1.
    pose proof (odd_half marg) as Hm.
    assert (Hpar : Z.odd w = xorb (Z.odd marg) (Z.odd (len text))).
    { replace w with (marg + len text) by (unfold marg; lia).
      now rewrite Z.odd_add. }
    exists (Z.to_nat (marg / 2 + (if Z.odd marg && Z.odd w then 1 else 0))),
           (Z.to_nat (marg - (marg / 2 + (if Z.odd marg && Z.odd w then 1 else 0)))).
    split; [reflexivity|].
    assert (Hmarg : 0 < marg) by (unfold marg; lia).
    rewrite <- Z.negb_odd.
    destruct (Z.odd marg), (Z.odd w); cbn [andb negb]; cbv iota in Hm;
      repeat split; try discriminate; intros; lia.
Qed.

Lemma ljust_pads (text : string) (w : Z) :
  ljust text w = text ++ str_repeat " " (Z.to_nat (w - len text)).
Proof.
  unfold ljust, pad, str_mul. destruct (len text >=? w) eqn:G.
  - apply Z.geb_le in G.
    replace (Z.to_nat (w - len text)) with 0%nat by lia.
    simpl. now rewrite append_empty_r.
  - reflexivity.
Qed.

Lemma rjust_pads (text : string) (w : Z) :
  rjust text w = str_repeat " " (Z.to_nat (w - len text)) ++ text.
Proof.
  unfold rjust, pad, str_mul. destruct (len text >=? w) eqn:G.
  - apply Z.geb_le in G.
    replace (Z.to_nat (w - len text)) with 0%nat by lia.
    reflexivity.
  - simpl. now rewrite append_empty_r.
Qed.

(** [' '.join] over the characters: twice as long minus one, the
    characters of the text at the even positions and a space at every odd
    position. *)
Lemma join_chars_length (t : string) :
  String.length (join_chars t) = (2 * String.length t - 1)%nat.
Proof.
  induction t as [|c t IH]; [reflexivity|].
  destruct t as [|d t]; [reflexivity|].
  change (join_chars (String c (String d t)))
    with (String c (String " " (join_chars (String d t)))).
  cbn [String.length] in *. lia.
Qed.

Lemma join_chars_get (t : string) :
  forall k,
    String.get (2 * k) (join_chars t) = String.get k t /\
    ((k + 1 < String.length t)%nat ->
     String.get (2 * k + 1) (join_chars t) = Some " "%char).
Proof.
  induction t as [|c t IH]; intros k.
  - split; [reflexivity | simpl; lia].
  - destruct t as [|d t].
    + destruct k; simpl; split; try reflexivity; lia.
    + change (join_chars (String c (String d t)))
        with (String c (String " " (join_chars (String d t)))).
      destruct k as [|k].
      * split; reflexivity.
      * replace (2 * S k)%nat with (S (S (2 * k))) by lia.
        replace (S (S (2 * k)) + 1)%nat with (S (S (2 * k + 1))) by lia.
        cbn [String.get]. destruct (IH k) as [H0 H1]. split; [exact H0|].
        intros Hk. apply H1. cbn [String.length] in *. lia.
Qed.

Lemma effective_width_value (st : PrinterState) :
  effective_width st
  = Ok (let w1 := if double_width st then chars_per_line st / 2
                  else chars_per_line st in
        if font_size st >? 1 then w1 / font_size st else w1).
Proof.
  unfold effective_width, floordiv. cbv zeta.
  destruct (font_size st >? 1) eqn:F; [|reflexivity].
  destruct (font_size st =? 0) eqn:Z0; [|reflexivity].
  apply Z.eqb_eq in Z0. rewrite Z0 in F. discriminate.
Qed.

(** C3 as written fails on a width that is odd: with the default 48
    columns and font size 5 the width is 9, and "hi" is centred with four
    spaces on the left and three on the right. *)
Lemma center_odd_width_extra_space_left :
  process_data sim0 data_center_size5
  = Returned (with_state st_center_size5 sim0,
              receipt_box 50 ["        h i      "]) /\
  effective_width st_center_size5 = Ok 9 /\
  justify st_center_size5 "hi" 9 = "    hi   " /\
  justify_spec st_center_size5 "hi" 9 = "   hi    " /\
  format_line (with_state st_center_size5 sim0) "hi"
  <> format_line_spec (with_state st_center_size5 sim0) "hi".
Proof.
  repeat split; try reflexivity. vm_compute. discriminate.
Qed.

(** C3 (amended). [format_line] renders in this order.  (1) The width is
    [chars_per_line], halved when [double_width] is set, then divided by
    [font_size] when it exceeds 1.  (2) The text is padded with [l] spaces
    on the left and [r] on the right, [l + r] being what the text lacks to
    the width (nothing when it is as long or longer): left alignment has
    [l = 0], right alignment has [r = 0], centring has [l] and [r] differ
    by at most one, the extra space going to the right when the width is
    even and to the left when it is odd.  (3) When emphasized, the padded
    text is put between the bold-on and bold-off sequences; the padding
    does not depend on it.  (4) When [double_width] is set or [font_size]
    exceeds 1, one space is put between every two characters of the whole
    string of step 3. *)
Theorem format_line_layout (self : ESCPOSSimulator) (text : string) :
  let st := state self in
  let w1 := if double_width st then chars_per_line st / 2
            else chars_per_line st in
  let w := if font_size st >? 1 then w1 / font_size st else w1 in
  exists l r : nat,
    let justified := str_repeat " " l ++ text ++ str_repeat " " r in
    let annotated :=
      if emphasized st then bold_on ++ justified ++ bold_off else justified in
    effective_width st = Ok w /\
    (l + r)%nat = Z.to_nat (w - len text) /\
    (alignment st = 1 ->
     (l <= r + 1)%nat /\ (r <= l + 1)%nat /\
     (Z.even w = true -> (l <= r)%nat) /\
     (Z.odd w = true -> (r <= l)%nat)) /\
    (alignment st = 2 -> r = 0%nat) /\
    (alignment st <> 1 -> alignment st <> 2 -> l = 0%nat) /\
    format_line self text
    = Ok (if double_width st || (font_size st >? 1)
          then join_chars annotated else annotated) /\
    String.length (join_chars annotated)
    = (2 * String.length annotated - 1)%nat /\
    (forall k,
       String.get (2 * k) (join_chars annotated) = String.get k annotated /\
       ((k + 1 < String.length annotated)%nat ->
        String.get (2 * k + 1) (join_chars annotated) = Some " "%char)).
Proof.
  intros st w1 w.
  assert (Hw : effective_width st = Ok w) by apply effective_width_value.
  assert (Hfmt : forall l r,
             justify st text w = str_repeat " " l ++ text ++ str_repeat " " r ->
             format_line self text
             = Ok (if double_width st || (font_size st >? 1)
                   then join_chars
                          (if emphasized st
                           then bold_on ++ (str_repeat " " l ++ text ++ str_repeat " " r)
                                ++ bold_off
                           else str_repeat " " l ++ text ++ str_repeat " " r)
                   else (if emphasized st
                         then bold_on ++ (str_repeat " " l ++ text ++ str_repeat " " r)
                              ++ bold_off
                         else str_repeat " " l ++ text ++ str_repeat " " r))).
  { intros l r Hj. unfold format_line. fold st. rewrite Hw. cbn [bind].
    unfold expand, annotate. now rewrite Hj. }
  destruct (alignment st =? 1) eqn:A1; [|destruct (alignment st =? 2) eqn:A2].
  - destruct (center_pads text w) as (l & r & Hc & Hlr & H1 & H2 & H3 & H4).
    exists l, r. cbv zeta.
    split; [exact Hw|]. split; [exact Hlr|]. split; [auto|].
    apply Z.eqb_eq in A1.
    split; [intros; congruence|]. split; [intros; congruence|].
    split; [apply Hfmt; unfold justify; now rewrite <- Z.eqb_eq in A1; rewrite A1|].
    split; [apply join_chars_length | apply join_chars_get].
  - exists (Z.to_nat (w - len text)), 0%nat. cbv zeta.
    split; [exact Hw|]. split; [lia|].
    apply Z.eqb_neq in A1.
    split; [intros; congruence|]. split; [reflexivity|].
    split; [intros _ H; apply Z.eqb_eq in A2; congruence|].
    split; [|split; [apply join_chars_length | apply join_chars_get]].
    apply Hfmt. unfold justify. apply Z.eqb_neq in A1. rewrite A1, A2.
    rewrite rjust_pads. cbn [str_repeat]. now rewrite append_empty_r.
  - exists 0%nat, (Z.to_nat (w - len text)). cbv zeta.
    split; [exact Hw|]. split; [lia|].
    split; [intros H; apply Z.eqb_neq in A1; congruence|].
    split; [intros H; apply Z.eqb_neq in A2; congruence|].
    split; [reflexivity|].
    split; [|split; [apply join_chars_length | apply join_chars_get]].
    apply Hfmt. unfold justify. rewrite A1, A2. apply ljust_pads.
Qed.

(** * Further properties of the decoder *)

(** ** Dispatch on the introducer *)

Lemma scan_step_esc (self : ESCPOSSimulator) (data : list Z) (i : nat) :
  nth_error data i = Some PrinterCommand.ESC ->
  scan_step self data i = handle_esc_sequence self data i.
Proof.
  intros H. unfold scan_step. apply getitem_nth in H. rewrite H.
  cbn [bind]. now rewrite Z.eqb_refl.
Qed.

Lemma scan_step_gs (self : ESCPOSSimulator) (data : list Z) (i : nat) :
  nth_error data i = Some PrinterCommand.GS ->
  scan_step self data i = handle_gs_sequence self data i.
Proof.
  intros H. unfold scan_step. apply getitem_nth in H. rewrite H.
  reflexivity.
Qed.

Lemma scan_step_fs (self : ESCPOSSimulator) (data : list Z) (i : nat) :
  nth_error data i = Some PrinterCommand.FS ->
  scan_step self data i = handle_fs_sequence self data i.
Proof.
  intros H. unfold scan_step. apply getitem_nth in H. rewrite H.
  reflexivity.
Qed.

Ltac byte_at H :=
  lazymatch type of H with
  | nth_error ?d ?k = Some _ =>
      let L := fresh "L" in
      assert (L : (k < List.length d)%nat)
        by (apply nth_error_Some; rewrite H; discriminate);
      apply getitem_nth in H
  end.

Ltac not_last :=
  match goal with
  | |- context [(List.length ?d <=? ?k)%nat] =>
      replace (List.length d <=? k)%nat with false
        by (symmetry; apply Nat.leb_gt; lia)
  end.

Ltac arg_present :=
  match goal with
  | |- context [(?k <? List.length ?d)%nat] =>
      replace (k <? List.length d)%nat with true
        by (symmetry; apply Nat.ltb_lt; lia)
  end.

Ltac arg_absent :=
  match goal with
  | |- context [(?k <? List.length ?d)%nat] =>
      replace (k <? List.length d)%nat with false
        by (symmetry; apply Nat.ltb_ge; lia)
  end.

(** ** The commands of family A *)

(** ESC a n with its argument present: the pending text is flushed first,
    so it is rendered with the alignment in force before the command; then
    the alignment becomes [n mod 3], a value in 0..2 whatever the byte,
    and no other field of the state changes. *)
Theorem select_justification_flushes_then_sets
  (self : ESCPOSSimulator) (data : list Z) (i : nat) (n : Z) :
  nth_error data i = Some PrinterCommand.ESC ->
  nth_error data (i + 1) = Some 0x61 ->
  nth_error data (i + 2) = Some n ->
  exists self',
    scan_step self data i = Ok (self', (i + 3)%nat) /\
    state self' = set_alignment (n mod 3) (state self) /\
    0 <= alignment (state self') <= 2 /\
    current_line self' = "" /\
    (current_line self = "" -> buffer self' = buffer self) /\
    (current_line self <> "" ->
     exists r, format_line self (current_line self) = Ok r /\
               buffer self' = (buffer self ++ [r])%list).
Proof.
  intros H0 H1 H2.
  destruct (flush_line_spec self) as (fl & E & Hs & Hp & Hl & Hb0 & Hb1).
  exists (upd_state (set_alignment (n mod 3)) fl). split.
  { rewrite (scan_step_esc _ _ _ H0). unfold handle_esc_sequence.
    byte_at H1. byte_at H2. not_last. rewrite H1. cbn [bind].
    change (97 =? 64) with false. change (97 =? 97) with true. cbv iota.
    arg_present. rewrite E. cbn [bind]. rewrite H2. reflexivity. }
  cbn [upd_state with_state state buffer current_line set_alignment alignment].
  rewrite Hs. split; [reflexivity|].
  split; [pose proof (Z.mod_pos_bound n 3 ltac:(lia)); lia|].
  auto.
Qed.

Lemma select_justification_flushes_then_sets_witness :
  exists self',
    scan_step sim_styled data_justify_right 1 = Ok (self', 4%nat) /\
    alignment (state self') = 2 /\
    List.length (buffer self') = 2%nat.
Proof.
  destruct (select_justification_flushes_then_sets sim_styled data_justify_right
              1 2 eq_refl eq_refl eq_refl)
    as (s & H & Hst & _ & _ & _ & Hb).
  exists s. split; [exact H|]. split; [now rewrite Hst|].
  destruct Hb as (r & _ & Hr); [discriminate|]. now rewrite Hr.
Defined.

(** ESC E n with its argument present: emphasis is on exactly when n is
    not 0; the pending text is not flushed, so the setting applies to the
    whole of the line being composed, and nothing else changes. *)
Theorem emphasis_command_sets_flag_only
  (self : ESCPOSSimulator) (data : list Z) (i : nat) (n : Z) :
  nth_error data i = Some PrinterCommand.ESC ->
  nth_error data (i + 1) = Some 0x45 ->
  nth_error data (i + 2) = Some n ->
  exists self',
    scan_step self data i = Ok (self', (i + 3)%nat) /\
    state self' = set_emphasized (negb (n =? 0)) (state self) /\
    (emphasized (state self') = true <-> n <> 0) /\
    buffer self' = buffer self /\
    current_line self' = current_line self.
Proof.
  intros H0 H1 H2.
  exists (upd_state (set_emphasized (bool_of_int n)) self). split.
  { rewrite (scan_step_esc _ _ _ H0). unfold handle_esc_sequence.
    byte_at H1. byte_at H2. not_last. rewrite H1. cbn [bind].
    change (69 =? 64) with false. change (69 =? 97) with false.
    change (69 =? 69) with true. cbv iota.
    arg_present. rewrite H2. reflexivity. }
  cbn [upd_state with_state state buffer current_line set_emphasized emphasized].
  unfold bool_of_int. repeat split; try reflexivity.
  - intros Hn ->. discriminate.
  - intros Hn. apply Z.eqb_neq in Hn. now rewrite Hn.
Qed.

Lemma emphasis_command_sets_flag_only_witness :
  exists self',
    scan_step sim0 data_emphasis_on 0 = Ok (self', 3%nat) /\
    emphasized (state self') = true.
Proof.
  destruct (emphasis_command_sets_flag_only sim0 data_emphasis_on 0 1
              eq_refl eq_refl eq_refl)
    as (s & H & _ & He & _).
  exists s. split; [exact H|]. apply He. discriminate.
Defined.

(** ESC d n with its argument present: the pending text is flushed, then
    exactly n empty lines are appended; the state is not touched. *)
Theorem feed_command_appends_blank_lines
  (self : ESCPOSSimulator) (data : list Z) (i : nat) (n : Z) :
  nth_error data i = Some PrinterCommand.ESC ->
  nth_error data (i + 1) = Some 0x64 ->
  nth_error data (i + 2) = Some n ->
  exists flushed_self self',
    flush_line self = Ok flushed_self /\
    scan_step self data i = Ok (self', (i + 3)%nat) /\
    buffer self' = (buffer flushed_self ++ repeat "" (Z.to_nat n))%list /\
    List.length (buffer self')
    = (List.length (buffer self)
       + (if str_truthy (current_line self) then 1 else 0)
       + Z.to_nat n)%nat /\
    current_line self' = "" /\
    state self' = state self.
Proof.
  intros H0 H1 H2.
  destruct (flush_line_spec self) as (fl & E & Hs & Hp & Hl & Hb0 & Hb1).
  exists fl, (with_buffer (buffer fl ++ repeat "" (Z.to_nat n))%list fl).
  split; [exact E|]. split.
  { rewrite (scan_step_esc _ _ _ H0). unfold handle_esc_sequence.
    byte_at H1. byte_at H2. not_last. rewrite H1. cbn [bind].
    change (100 =? 64) with false. change (100 =? 97) with false.
    change (100 =? 69) with false. change (100 =? 100) with true. cbv iota.
    arg_present. rewrite E. cbn [bind]. rewrite H2. reflexivity. }
  cbn [with_buffer buffer current_line state].
  split; [reflexivity|]. split; [|auto].
  rewrite length_app, repeat_length.
  destruct (current_line self) as [|c rest] eqn:Hc; cbn [str_truthy].
  - rewrite Hb0 by reflexivity. lia.
  - destruct Hb1 as (r & _ & Hr); [discriminate|].
    rewrite Hr, length_app. simpl. lia.
Qed.

Lemma feed_command_appends_blank_lines_witness :
  exists self',
    scan_step sim_styled data_feed3 0 = Ok (self', 3%nat) /\
    List.length (buffer self') = 5%nat /\
    last (buffer self') "x" = "".
Proof.
  destruct (feed_command_appends_blank_lines sim_styled data_feed3 0 3
              eq_refl eq_refl eq_refl)
    as (fl & s & E & H & Hb & Hlen & _).
  exists s. split; [exact H|]. split; [exact Hlen|].
  rewrite Hb. vm_compute in E. injection E as <-. reflexivity.
Defined.

(** ESC $ : the engine is left as it is and the cursor moves by 4 without
    the two argument bytes being read, present or not. *)
Theorem absolute_position_skips_four
  (self : ESCPOSSimulator) (data : list Z) (i : nat) :
  nth_error data i = Some PrinterCommand.ESC ->
  nth_error data (i + 1) = Some 0x24 ->
  scan_step self data i = Ok (self, (i + 4)%nat) /\
  forall tail,
    scan_step self (firstn (i + 2) data ++ tail) i = Ok (self, (i + 4)%nat).
Proof.
  intros H0 H1.
  assert (G : forall d, nth_error d i = Some PrinterCommand.ESC ->
                        nth_error d (i + 1) = Some 0x24 ->
                        scan_step self d i = Ok (self, (i + 4)%nat)).
  { intros d D0 D1. rewrite (scan_step_esc _ _ _ D0).
    unfold handle_esc_sequence. byte_at D1. not_last. now rewrite D1. }
  split; [now apply G|].
  intros tail.
  assert (Li : (i + 1 < List.length data)%nat)
    by (apply nth_error_Some; congruence).
  assert (Lf : List.length (firstn (i + 2) data) = (i + 2)%nat)
    by (rewrite length_firstn; lia).
  apply G.
  - rewrite nth_error_app1 by lia. rewrite nth_error_firstn.
    replace (i <? i + 2)%nat with true by (symmetry; apply Nat.ltb_lt; lia).
    exact H0.
  - rewrite nth_error_app1 by lia. rewrite nth_error_firstn.
    replace (i + 1 <? i + 2)%nat with true by (symmetry; apply Nat.ltb_lt; lia).
    exact H1.
Qed.

Lemma absolute_position_skips_four_witness :
  scan_step sim_styled data_position_truncated 1 = Ok (sim_styled, 5%nat).
Proof.
  exact (proj1 (absolute_position_skips_four sim_styled data_position_truncated
                  1 eq_refl eq_refl)).
Defined.

(** ** What the layout reads *)

(** [format_line] reads five fields of the state and nothing else of the
    engine: two engines that agree on the line width, the width doubling,
    the font size, the alignment and the emphasis render every text alike,
    whatever their other flags, code page, spacings, buffer and pending
    text. *)
Theorem format_line_reads_five_fields
  (self self' : ESCPOSSimulator) (text : string) :
  same_layout (state self) (state self') ->
  format_line self' text = format_line self text.
Proof.
  intros (Hc & Hd & Hf & Ha & He).
  unfold format_line, effective_width, justify, annotate, expand.
  now rewrite Hc, Hd, Hf, Ha, He.
Qed.

Lemma format_line_reads_five_fields_witness :
  format_line (upd_state (set_code_page 16) (upd_state (set_font_b true) sim0))
    "Total"
  = format_line sim0 "Total".
Proof.
  apply format_line_reads_five_fields.
  unfold same_layout. repeat split; reflexivity.
Defined.

(** ESC t n with its argument present: the code page is stored as given
    and nothing else changes; the rendering of every text stays the same. *)
Theorem code_page_command_is_stored_only
  (self : ESCPOSSimulator) (data : list Z) (i : nat) (n : Z) :
  nth_error data i = Some PrinterCommand.ESC ->
  nth_error data (i + 1) = Some 0x74 ->
  nth_error data (i + 2) = Some n ->
  exists self',
    scan_step self data i = Ok (self', (i + 3)%nat) /\
    state self' = set_code_page n (state self) /\
    buffer self' = buffer self /\
    current_line self' = current_line self /\
    forall text, format_line self' text = format_line self text.
Proof.
  intros H0 H1 H2.
  exists (upd_state (set_code_page n) self). split.
  { rewrite (scan_step_esc _ _ _ H0). unfold handle_esc_sequence.
    byte_at H1. byte_at H2. not_last. rewrite H1. cbn [bind].
    change (116 =? 64) with false. change (116 =? 97) with false.
    change (116 =? 69) with false. change (116 =? 100) with false.
    change (116 =? 36) with false. change (116 =? 116) with true. cbv iota.
    arg_present. rewrite H2. reflexivity. }
  repeat split.
Qed.

Lemma code_page_command_is_stored_only_witness :
  exists self',
    scan_step sim_styled data_code_page 0 = Ok (self', 3%nat) /\
    code_page (state self') = 16.
Proof.
  destruct (code_page_command_is_stored_only sim_styled data_code_page 0 16
              eq_refl eq_refl eq_refl)
    as (s & H & Hst & _).
  exists s. split; [exact H | now rewrite Hst].
Defined.

Lemma land_pow2_testbit (n k : Z) :
  0 <= k -> bool_of_int (Z.land n (2 ^ k)) = Z.testbit n k.
Proof.
  intros Hk. unfold bool_of_int.
  assert (E : Z.land n (2 ^ k) = if Z.testbit n k then 2 ^ k else 0).
  { apply Z.bits_inj'. intros m Hm.
    rewrite Z.land_spec, Z.pow2_bits_eqb by lia.
    destruct (Z.eqb_spec k m) as [->|Hne].
    - destruct (Z.testbit n m) eqn:T.
      + rewrite Z.pow2_bits_eqb by lia. now rewrite Z.eqb_refl.
      + now rewrite Z.bits_0.
    - rewrite andb_false_r. destruct (Z.testbit n k).
      + rewrite Z.pow2_bits_eqb by lia.
        symmetry. now apply Z.eqb_neq.
      + now rewrite Z.bits_0. }
  rewrite E. destruct (Z.testbit n k).
  - assert (0 < 2 ^ k) by (apply Z.pow_pos_nonneg; lia).
    destruct (Z.eqb_spec (2 ^ k) 0); [lia | reflexivity].
  - reflexivity.
Qed.

(** ESC ! n with its argument present: font B, emphasis, double height and
    double width become bits 0, 3, 4 and 5 of n, each overwriting what was
    set before (an emphasis set by ESC E included); bits 1, 2, 6 and 7 are
    ignored, and alignment, font size and the rest of the engine stay. *)
Theorem print_mode_command_decodes_bits
  (self : ESCPOSSimulator) (data : list Z) (i : nat) (n : Z) :
  nth_error data i = Some PrinterCommand.ESC ->
  nth_error data (i + 1) = Some 0x21 ->
  nth_error data (i + 2) = Some n ->
  exists self',
    scan_step self data i = Ok (self', (i + 3)%nat) /\
    font_b (state self') = Z.testbit n 0 /\
    emphasized (state self') = Z.testbit n 3 /\
    double_height (state self') = Z.testbit n 4 /\
    double_width (state self') = Z.testbit n 5 /\
    same_static (state self) (state self') /\
    alignment (state self') = alignment (state self) /\
    font_size (state self') = font_size (state self) /\
    code_page (state self') = code_page (state self) /\
    buffer self' = buffer self /\
    current_line self' = current_line self.
Proof.
  intros H0 H1 H2.
  eexists. split.
  { rewrite (scan_step_esc _ _ _ H0). unfold handle_esc_sequence.
    byte_at H1. byte_at H2. not_last. rewrite H1. cbn [bind].
    change (33 =? 64) with false. change (33 =? 97) with false.
    change (33 =? 69) with false. change (33 =? 100) with false.
    change (33 =? 36) with false. change (33 =? 116) with false.
    change (33 =? 33) with true. cbv iota.
    arg_present. rewrite H2. reflexivity. }
  cbn [upd_state with_state state buffer current_line set_font_b set_emphasized
       set_double_height set_double_width font_b emphasized double_height
       double_width alignment font_size code_page].
  split; [exact (land_pow2_testbit n 0 ltac:(lia))|].
  split; [exact (land_pow2_testbit n 3 ltac:(lia))|].
  split; [exact (land_pow2_testbit n 4 ltac:(lia))|].
  split; [exact (land_pow2_testbit n 5 ltac:(lia))|].
  split; [static_fields|]. repeat split.
Qed.

Lemma print_mode_command_decodes_bits_witness :
  emphasized (state sim_styled) = true /\
  exists self',
    scan_step sim_styled data_print_mode 0 = Ok (self', 3%nat) /\
    font_b (state self') = true /\
    emphasized (state self') = false /\
    double_width (state self') = true.
Proof.
  split; [reflexivity|].
  destruct (print_mode_command_decodes_bits sim_styled data_print_mode 0 0x21
              eq_refl eq_refl eq_refl)
    as (s & H & Hb & He & _ & Hw & _).
  exists s. repeat split; assumption.
Defined.

(** ** Sequences that change nothing *)

(** Family C: whatever the selector, the engine is left as it is; the
    cursor moves by 2, or by 1 when the introducer is the last byte. *)
Theorem fs_family_changes_nothing
  (self : ESCPOSSimulator) (data : list Z) (i : nat) :
  nth_error data i = Some PrinterCommand.FS ->
  scan_step self data i
  = Ok (self, if (i + 1 <? List.length data)%nat then (i + 2)%nat
              else (i + 1)%nat).
Proof.
  intros H0. rewrite (scan_step_fs _ _ _ H0). unfold handle_fs_sequence.
  destruct (i + 1 <? List.length data)%nat eqn:G.
  - apply Nat.ltb_lt in G. not_last.
    destruct (getitem_ok data (i + 1) G) as [b ->]. cbn [bind].
    now destruct (b =? 46).
  - apply Nat.ltb_ge in G.
    replace (List.length data <=? i + 1)%nat with true
      by (symmetry; apply Nat.leb_le; lia).
    reflexivity.
Qed.

Lemma fs_family_changes_nothing_witness :
  scan_step sim_styled data_fs 2 = Ok (sim_styled, 4%nat).
Proof. exact (fs_family_changes_nothing sim_styled data_fs 2 eq_refl). Defined.

(** A selector that the family does not know: the engine is left as it is
    and the cursor moves by 2, so the byte after the selector is decoded
    next as a byte of its own. *)
Theorem unknown_selector_skips_two
  (self : ESCPOSSimulator) (data : list Z) (i : nat) (intro cmd : Z) :
  nth_error data i = Some intro ->
  nth_error data (i + 1) = Some cmd ->
  intro = PrinterCommand.ESC /\
    ~ In cmd [0x40; 0x61; 0x45; 0x64; 0x24; 0x74; 0x21] \/
  intro = PrinterCommand.GS /\ ~ In cmd [0x56; 0x21] ->
  scan_step self data i = Ok (self, (i + 2)%nat).
Proof.
  intros H0 H1 [[-> Hc]|[-> Hc]].
  - rewrite (scan_step_esc _ _ _ H0). unfold handle_esc_sequence.
    byte_at H1. not_last. rewrite H1. cbn [bind].
    repeat match goal with
    | |- context [cmd =? ?k] =>
        destruct (Z.eqb_spec cmd k) as [->|_];
        [exfalso; apply Hc; simpl; tauto|]
    end.
    reflexivity.
  - rewrite (scan_step_gs _ _ _ H0). unfold handle_gs_sequence.
    byte_at H1. not_last. rewrite H1. cbn [bind].
    repeat match goal with
    | |- context [cmd =? ?k] =>
        destruct (Z.eqb_spec cmd k) as [->|_];
        [exfalso; apply Hc; simpl; tauto|]
    end.
    reflexivity.
Qed.

Lemma unknown_selector_skips_two_witness :
  scan_step sim_styled data_unknown_esc 0 = Ok (sim_styled, 2%nat).
Proof.
  apply (unknown_selector_skips_two sim_styled data_unknown_esc 0
           PrinterCommand.ESC 0x32 eq_refl eq_refl).
  left. split; [reflexivity|].
  simpl. intros [H|[H|[H|[H|[H|[H|[H|[]]]]]]]]; discriminate.
Defined.

(** An introducer that is the last byte of the data: no byte is read after
    it, the engine is left as it is and the cursor lands on the end. *)
Theorem lone_introducer_changes_nothing
  (self : ESCPOSSimulator) (data : list Z) (i : nat) (b : Z) :
  nth_error data i = Some b ->
  is_introducer b = true ->
  List.length data = (i + 1)%nat ->
  scan_step self data i = Ok (self, List.length data).
Proof.
  intros H0 Hb Hlen. unfold is_introducer in Hb.
  assert (Hlast : (List.length data <=? i + 1)%nat = true)
    by (apply Nat.leb_le; lia).
  rewrite Hlen.
  destruct (Z.eqb_spec b PrinterCommand.ESC) as [->|_].
  { rewrite (scan_step_esc _ _ _ H0). unfold handle_esc_sequence.
    now rewrite Hlast. }
  destruct (Z.eqb_spec b PrinterCommand.GS) as [->|_].
  { rewrite (scan_step_gs _ _ _ H0). unfold handle_gs_sequence.
    now rewrite Hlast. }
  destruct (Z.eqb_spec b PrinterCommand.FS) as [->|_]; [|discriminate].
  rewrite (scan_step_fs _ _ _ H0). unfold handle_fs_sequence.
  now rewrite Hlast.
Qed.

Lemma lone_introducer_changes_nothing_witness :
  scan_step sim_styled [0x41; 0x1D] 1 = Ok (sim_styled, 2%nat).
Proof.
  exact (lone_introducer_changes_nothing sim_styled [0x41; 0x1D] 1 0x1D
           eq_refl eq_refl eq_refl).
Defined.

(** A command whose argument byte is cut off by the end of the data
    (ESC a, ESC E, ESC d, ESC t, ESC ! and GS !): the engine is left as it
    is, in particular the pending text is not flushed, and the cursor is
    one past the end. *)
Theorem truncated_argument_changes_nothing
  (self : ESCPOSSimulator) (data : list Z) (i : nat) (intro cmd : Z) :
  nth_error data i = Some intro ->
  nth_error data (i + 1) = Some cmd ->
  List.length data = (i + 2)%nat ->
  intro = PrinterCommand.ESC /\ In cmd [0x61; 0x45; 0x64; 0x74; 0x21] \/
  intro = PrinterCommand.GS /\ cmd = 0x21 ->
  scan_step self data i = Ok (self, (List.length data + 1)%nat).
Proof.
  intros H0 H1 Hlen Hcmd.
  replace (List.length data + 1)%nat with (i + 3)%nat by lia.
  destruct Hcmd as [[-> Hc]|[-> ->]].
  - rewrite (scan_step_esc _ _ _ H0). unfold handle_esc_sequence.
    byte_at H1. not_last. rewrite H1. cbn [bind]. arg_absent.
    simpl in Hc.
    destruct Hc as [<-|[<-|[<-|[<-|[<-|[]]]]]]; reflexivity.
  - rewrite (scan_step_gs _ _ _ H0). unfold handle_gs_sequence.
    byte_at H1. not_last. rewrite H1. cbn [bind]. arg_absent.
    reflexivity.
Qed.

Lemma truncated_argument_changes_nothing_witness :
  scan_step sim_styled data_truncated_size 1 = Ok (sim_styled, 4%nat).
Proof.
  apply (truncated_argument_changes_nothing sim_styled data_truncated_size 1
           PrinterCommand.GS 0x21 eq_refl eq_refl eq_refl).
  right. split; reflexivity.
Defined.

(** ** Batches without commands *)

Lemma flushed_spec (self : ESCPOSSimulator) : flush_line self = Ok (flushed self).
Proof.
  unfold flushed. destruct (flush_line_ok self) as (s & E & _). now rewrite E.
Qed.

Lemma scan_step_feed (self : ESCPOSSimulator) (data : list Z) (i : nat) (b : Z) :
  nth_error data i = Some b ->
  is_introducer b = false ->
  scan_step self data i = Ok (feed self b, (i + 1)%nat).
Proof.
  intros H Hb. unfold is_introducer in Hb.
  apply orb_false_elim in Hb as [Hb Hfs].
  apply orb_false_elim in Hb as [Hesc Hgs].
  unfold scan_step, feed. apply getitem_nth in H. rewrite H. cbn [bind].
  rewrite Hesc, Hgs, Hfs.
  destruct (b =? PrinterCommand.LF).
  { now rewrite flushed_spec. }
  destruct (b =? PrinterCommand.CR); [reflexivity|].
  unfold is_printable. now destruct ((32 <=? b) && (b <=? 126)).
Qed.

(** On bytes none of which is an introducer the loop is a left fold of
    [feed], one byte per iteration. *)
Lemma scan_feed_from (suf : list Z) :
  forall pre self,
    forallb (fun b => negb (is_introducer b)) suf = true ->
    scan (List.length suf) self (pre ++ suf) (List.length pre)
    = Returned (fold_left feed suf self, List.length (pre ++ suf)).
Proof.
  induction suf as [|b suf IH]; intros pre self Hall.
  - simpl. rewrite app_nil_r, Nat.ltb_irrefl. reflexivity.
  - simpl in Hall. apply andb_prop in Hall as [Hb Hall].
    apply negb_true_iff in Hb.
    cbn [scan List.length].
    replace (List.length pre <? List.length (pre ++ b :: suf))%nat with true
      by (symmetry; apply Nat.ltb_lt; rewrite length_app; simpl; lia).
    rewrite (scan_step_feed self (pre ++ b :: suf) (List.length pre) b);
      [| rewrite nth_error_app2, Nat.sub_diag by lia; reflexivity | exact Hb].
    specialize (IH (pre ++ [b])%list (feed self b) Hall).
    rewrite <- app_assoc in IH. simpl in IH.
    rewrite length_app in IH. simpl in IH. exact IH.
Qed.

Lemma scan_feed (self : ESCPOSSimulator) (data : list Z) :
  forallb (fun b => negb (is_introducer b)) data = true ->
  scan (List.length data) self data 0
  = Returned (fold_left feed data self, List.length data).
Proof. intros H. exact (scan_feed_from data [] self H). Qed.

Lemma append_assoc_string (a b c : string) : (a ++ b) ++ c = a ++ (b ++ c).
Proof. induction a as [|x a IH]; simpl; congruence. Qed.

Lemma chr_ord (c : ascii) : chr (ord c) = c.
Proof. unfold chr, ord. rewrite Nat2Z.id. apply ascii_nat_embedding. Qed.

Lemma feed_printable (self : ESCPOSSimulator) (c : ascii) :
  is_printable (ord c) = true ->
  feed self (ord c)
  = with_current_line (current_line self ++ String c "") self.
Proof.
  intros Hp. unfold feed. rewrite Hp, chr_ord.
  unfold is_printable in Hp. apply andb_prop in Hp as [Hlo _].
  apply Z.leb_le in Hlo.
  replace (ord c =? PrinterCommand.LF) with false
    by (symmetry; apply Z.eqb_neq; unfold PrinterCommand.LF; lia).
  replace (ord c =? PrinterCommand.CR) with false
    by (symmetry; apply Z.eqb_neq; unfold PrinterCommand.CR; lia).
  reflexivity.
Qed.

Lemma printable_no_introducer (s : string) :
  printable_text s = true ->
  forallb (fun b => negb (is_introducer b)) (encode s) = true.
Proof.
  induction s as [|c s IH]; [reflexivity|]. simpl. intros H.
  apply andb_prop in H as [Hc Hs]. rewrite (IH Hs), andb_true_r.
  unfold is_printable in Hc. apply andb_prop in Hc as [Hlo _].
  apply Z.leb_le in Hlo. unfold is_introducer.
  replace (ord c =? PrinterCommand.ESC) with false
    by (symmetry; apply Z.eqb_neq; unfold PrinterCommand.ESC; lia).
  replace (ord c =? PrinterCommand.GS) with false
    by (symmetry; apply Z.eqb_neq; unfold PrinterCommand.GS; lia).
  replace (ord c =? PrinterCommand.FS) with false
    by (symmetry; apply Z.eqb_neq; unfold PrinterCommand.FS; lia).
  reflexivity.
Qed.

Lemma fold_feed_text (s : string) :
  forall self,
    printable_text s = true ->
    fold_left feed (encode s) self
    = with_current_line (current_line self ++ s) self.
Proof.
  induction s as [|c s IH]; intros self H.
  - simpl. rewrite append_empty_r. now destruct self.
  - simpl in H. apply andb_prop in H as [Hc Hs].
    cbn [encode fold_left]. rewrite (feed_printable self c Hc), (IH _ Hs).
    cbn [with_current_line current_line port state buffer].
    now rewrite append_assoc_string.
Qed.

Lemma encode_length (s : string) : List.length (encode s) = String.length s.
Proof. induction s as [|c s IH]; simpl; congruence. Qed.

(** Decoding the bytes of a text of printable ASCII characters appends
    that very text to the line being composed: the same characters in the
    same order, nothing dropped; the state and the buffer are not touched,
    and the cursor ends exactly on the end of the data. *)
Theorem printable_text_is_appended (self : ESCPOSSimulator) (s : string) :
  printable_text s = true ->
  scan (List.length (encode s)) self (encode s) 0
  = Returned (with_current_line (current_line self ++ s) self,
              String.length s).
Proof.
  intros H. rewrite scan_feed by now apply printable_no_introducer.
  now rewrite fold_feed_text, encode_length.
Qed.

Lemma printable_text_is_appended_witness :
  scan 5 sim_styled (encode "Total") 0
  = Returned (with_current_line "12.50Total" sim_styled, 5%nat).
Proof. exact (printable_text_is_appended sim_styled "Total" eq_refl). Defined.

Lemma feed_ignored (self : ESCPOSSimulator) (b : Z) :
  is_ignored b = true -> feed self b = self.
Proof.
  unfold is_ignored, feed. intros H.
  apply andb_prop in H as [H Hp]. apply andb_prop in H as [_ Hlf].
  apply negb_true_iff in Hp, Hlf. rewrite Hlf, Hp.
  now destruct (b =? PrinterCommand.CR).
Qed.

Lemma fold_feed_ignored (data : list Z) (self : ESCPOSSimulator) :
  forallb is_ignored data = true -> fold_left feed data self = self.
Proof.
  induction data as [|b data IH]; [reflexivity|]. simpl. intros H.
  apply andb_prop in H as [Hb Hd]. rewrite (feed_ignored self b Hb). auto.
Qed.

Lemma ignored_no_introducer (data : list Z) :
  forallb is_ignored data = true ->
  forallb (fun b => negb (is_introducer b)) data = true.
Proof.
  induction data as [|b data IH]; [reflexivity|]. simpl. intros H.
  apply andb_prop in H as [Hb Hd]. rewrite (IH Hd), andb_true_r.
  unfold is_ignored in Hb. apply andb_prop in Hb as [Hb _].
  now apply andb_prop in Hb as [Hb _].
Qed.

(** A batch made only of bytes that are neither introducers, nor line
    feeds, nor printable (NUL, HT, CR, DEL, bytes above 126, ...) leaves
    the engine exactly as it was, pending text included; on an engine with
    nothing pending it displays nothing. *)
Theorem ignored_bytes_change_nothing (self : ESCPOSSimulator) (data : list Z) :
  forallb is_ignored data = true ->
  scan (List.length data) self data 0 = Returned (self, List.length data) /\
  (buffer self = [] -> current_line self = "" ->
   process_data self data = Returned (self, [])).
Proof.
  intros H.
  assert (E : scan (List.length data) self data 0
              = Returned (self, List.length data)).
  { rewrite scan_feed by now apply ignored_no_introducer.
    now rewrite fold_feed_ignored. }
  split; [exact E|].
  intros Hb Hl. unfold process_data, print_buffer. rewrite E, Hb, Hl.
  reflexivity.
Qed.

Lemma ignored_bytes_change_nothing_witness :
  scan 6 sim_styled data_ignored 0 = Returned (sim_styled, 6%nat) /\
  process_data sim_clean_styled data_ignored = Returned (sim_clean_styled, []).
Proof.
  split.
  - exact (proj1 (ignored_bytes_change_nothing sim_styled data_ignored eq_refl)).
  - exact (proj2 (ignored_bytes_change_nothing sim_clean_styled data_ignored
                    eq_refl) eq_refl eq_refl).
Defined.

(** ** Plain documents *)

Lemma format_line_state (self self' : ESCPOSSimulator) (text : string) :
  state self' = state self -> format_line self' text = format_line self text.
Proof. intros H. unfold format_line. now rewrite H. Qed.

Lemma flushed_pending (self : ESCPOSSimulator) (l : string) :
  l <> "" ->
  exists r,
    format_line self l = Ok r /\
    flushed (with_current_line l self)
    = with_current_line "" (with_buffer (buffer self ++ [r])%list self).
Proof.
  intros Hl. destruct (format_line_ok self l) as [r Hr]. exists r.
  split; [exact Hr|].
  destruct l as [|c l]; [congruence|].
  unfold flushed, flush_line.
  change (current_line (with_current_line (String c l) self)) with (String c l).
  cbn [str_truthy].
  rewrite (format_line_state self (with_current_line (String c l) self)
             (String c l) eq_refl), Hr.
  reflexivity.
Qed.

Lemma flushed_nothing (self : ESCPOSSimulator) :
  current_line self = "" -> flushed self = self.
Proof. intros H. unfold flushed, flush_line. now rewrite H. Qed.

Lemma encode_lines_no_introducer (ls : list string) :
  forallb printable_text ls = true ->
  forallb (fun b => negb (is_introducer b)) (encode_lines ls) = true.
Proof.
  induction ls as [|l ls IH]; [reflexivity|]. simpl. intros H.
  apply andb_prop in H as [Hl Hls].
  unfold encode_lines. cbn [map List.concat]. rewrite !forallb_app.
  rewrite (printable_no_introducer l Hl). simpl.
  exact (IH Hls).
Qed.

(** The loop on a document of lines, each followed by LF, entered with no
    pending text: every non-empty line is rendered with the state of the
    engine and appended, in order; empty lines leave no trace. *)
Lemma fold_feed_lines (ls : list string) :
  forall self,
    current_line self = "" ->
    forallb printable_text ls = true ->
    exists rows,
      Forall2 (fun l r => format_line self l = Ok r) (filter str_truthy ls) rows /\
      fold_left feed (encode_lines ls) self
      = with_buffer (buffer self ++ rows)%list self.
Proof.
  induction ls as [|l ls IH]; intros self Hcl Hall.
  - exists []. split; [constructor|]. simpl. rewrite app_nil_r. now destruct self.
  - simpl in Hall. apply andb_prop in Hall as [Hl Hls].
    unfold encode_lines. cbn [map List.concat]. fold (encode_lines ls).
    rewrite <- app_assoc, !fold_left_app. rewrite (fold_feed_text l self Hl).
    rewrite Hcl. cbn [append fold_left].
    unfold feed at 2. rewrite Z.eqb_refl.
    destruct l as [|c l].
    + rewrite flushed_nothing by reflexivity.
      replace (with_current_line "" self) with self
        by (destruct self; simpl in *; now subst).
      exact (IH self Hcl Hls).
    + destruct (flushed_pending self (String c l)) as (r & Hr & ->);
        [discriminate|].
      set (s1 := with_current_line "" (with_buffer (buffer self ++ [r])%list self)).
      destruct (IH s1 eq_refl Hls) as (rows & Hrows & Hfold).
      exists (r :: rows). split.
      * cbn [filter str_truthy]. constructor; [exact Hr|].
        eapply Forall2_impl; [|exact Hrows].
        intros a b' Hab. now rewrite <- (format_line_state self s1 a eq_refl).
      * rewrite Hfold. subst s1.
        cbn [with_buffer with_current_line port state buffer current_line].
        rewrite <- app_assoc. simpl.
        destruct self; simpl in *; now subst.
Qed.

(** What [print_buffer] displays after the loop has run over a document
    on an engine that had nothing pending. *)
Lemma document_display
  (self : ESCPOSSimulator) (ls : list string) (tail : string) :
  buffer self = [] ->
  current_line self = "" ->
  forallb printable_text ls = true ->
  printable_text tail = true ->
  exists rows,
    Forall2 (fun l r => format_line self l = Ok r)
      (filter str_truthy (ls ++ [tail])) rows /\
    print_buffer (fold_left feed (encode_lines ls ++ encode tail) self)
    = Ok (self,
          match rows with
          | [] => []
          | _ => receipt_box (chars_per_line (state self) + 2) rows
          end).
Proof.
  intros Hb Hcl Hls Htail.
  destruct (fold_feed_lines ls self Hcl Hls) as (rows0 & Hrows0 & Hfold).
  rewrite fold_left_app, Hfold, fold_feed_text by exact Htail.
  rewrite Hb. cbn [app with_buffer current_line]. rewrite Hcl.
  unfold print_buffer, flush_line.
  cbn [with_current_line with_buffer buffer current_line state port append].
  rewrite filter_app.
  destruct tail as [|c tail].
  - exists rows0. cbn [filter str_truthy]. rewrite app_nil_r.
    split; [exact Hrows0|].
    destruct rows0 as [|r0 rows0]; cbn [list_truthy negb andb bind].
    + f_equal. f_equal. destruct self; simpl in *; now subst.
    + f_equal. f_equal. destruct self; simpl in *; now subst.
  - destruct (format_line_ok self (String c tail)) as [r Hr].
    exists (rows0 ++ [r])%list. split.
    { apply Forall2_app; [exact Hrows0|]. cbn [filter str_truthy].
      constructor; [exact Hr | constructor]. }
    cbn [str_truthy negb]. rewrite andb_false_r.
    match goal with
    | |- context [format_line ?s (String c tail)] =>
        rewrite (format_line_state self s (String c tail) eq_refl), Hr
    end.
    cbn [bind with_current_line with_buffer buffer current_line state port].
    destruct rows0; cbn [app]; (f_equal; f_equal; destruct self; simpl in *; now subst).
Qed.

Lemma document_no_introducer (ls : list string) (tail : string) :
  forallb printable_text ls = true ->
  printable_text tail = true ->
  forallb (fun b => negb (is_introducer b)) (encode_lines ls ++ encode tail)
  = true.
Proof.
  intros Hls Htail.
  rewrite forallb_app, encode_lines_no_introducer by exact Hls.
  now apply printable_no_introducer.
Qed.

(** A batch of printable text with no command in it, made of lines each
    ended by LF and of a last piece of text that may lack its LF, processed
    by an engine with nothing pending.  Every non-empty line, the
    unterminated last one included, is rendered with the state of the
    engine and gives one row, in order; empty lines give no row (a line
    feed alone never makes a blank line).  With no row nothing is printed;
    otherwise what is printed is the title, the top border, the rows and
    the bottom border, where the row of a rendered line is that line
    between "│ " and " │" when it has a character that is not white space,
    and [chars_per_line + 2] spaces between two bars when it is made of
    spaces only.  The engine comes back as it was. *)
Theorem plain_document_prints_its_lines
  (self : ESCPOSSimulator) (ls : list string) (tail : string) :
  buffer self = [] ->
  current_line self = "" ->
  forallb printable_text ls = true ->
  printable_text tail = true ->
  exists rows,
    Forall2 (fun l r => format_line self l = Ok r)
      (filter str_truthy (ls ++ [tail])) rows /\
    process_data self (encode_lines ls ++ encode tail)
    = Returned
        (self,
         match rows with
         | [] => []
         | _ =>
             String (ascii_of_nat 10) "🧾 Receipt Output:"
             :: ("┌" ++ str_repeat "─" (Z.to_nat (chars_per_line (state self) + 2)) ++ "┐")
             :: (map (fun line =>
                        if existsb (fun c => negb (isspace c))
                             (list_ascii_of_string line)
                        then ("│ " ++ line ++ " │")%string
                        else ("│" ++ str_repeat " " (Z.to_nat (chars_per_line (state self) + 2)) ++ "│")%string)
                   rows
                 ++ [("└" ++ str_repeat "─" (Z.to_nat (chars_per_line (state self) + 2)) ++ "┘")%string])%list
         end).
Proof.
  intros Hb Hcl Hls Htail.
  destruct (document_display self ls tail Hb Hcl Hls Htail)
    as (rows & Hrows & Hprint).
  exists rows. split; [exact Hrows|].
  unfold process_data.
  rewrite scan_feed by now apply document_no_introducer.
  rewrite Hprint. destruct rows; [reflexivity|].
  now rewrite receipt_box_rows.
Qed.

Lemma plain_document_prints_its_lines_witness :
  process_data sim0
    (encode_lines ["Hi"; ""; "   "] ++ encode "bye")
  = Returned
      (sim0,
       [String (ascii_of_nat 10) "🧾 Receipt Output:";
        "┌" ++ str_repeat "─" 50 ++ "┐";
        "│ " ++ ("Hi" ++ str_repeat " " 46) ++ " │";
        "│" ++ str_repeat " " 50 ++ "│";
        "│ " ++ ("bye" ++ str_repeat " " 45) ++ " │";
        "└" ++ str_repeat "─" 50 ++ "┘"]).
Proof.
  destruct (plain_document_prints_its_lines sim0 ["Hi"; ""; "   "] "bye"
              eq_refl eq_refl eq_refl eq_refl) as (rows & Hrows & H).
  rewrite H.
  cbn [app filter str_truthy] in Hrows.
  inversion Hrows as [|? r1 ? t1 E1 F1]; subst.
  inversion F1 as [|? r2 ? t2 E2 F2]; subst.
  inversion F2 as [|? r3 ? t3 E3 F3]; subst.
  inversion F3; subst.
  vm_compute in E1, E2, E3.
  injection E1 as <-. injection E2 as <-. injection E3 as <-.
  reflexivity.
Defined.

(** ** What every iteration keeps *)

Lemma flush_line_extends (self : ESCPOSSimulator) :
  exists fl suf,
    flush_line self = Ok fl /\
    buffer fl = (buffer self ++ suf)%list /\
    state fl = state self /\
    port fl = port self.
Proof.
  destruct (flush_line_spec self) as (fl & E & Hs & Hp & _ & Hb0 & Hb1).
  destruct (current_line self) as [|c rest] eqn:Hc.
  - exists fl, []. rewrite app_nil_r. auto.
  - destruct Hb1 as (r & _ & Hr); [discriminate|]. exists fl, [r]. auto.
Qed.

Lemma wf_state_new : wf_state PrinterState_new.
Proof. unfold wf_state. cbn. lia. Qed.

Lemma char_size_range (n : Z) :
  1 <= Z.max (Z.shiftr (Z.land n 0x70) 4 + 1) (Z.land n 0x07 + 1) <= 8.
Proof.
  rewrite field_bits_4_6, land_7_mod.
  pose proof (Z.mod_pos_bound (n / 16) 8 ltac:(lia)).
  pose proof (Z.mod_pos_bound n 8 ltac:(lia)). lia.
Qed.

Ltac flush_extends :=
  match goal with
  | |- context [flush_line ?s] =>
      let fl := fresh "fl" in
      let suf := fresh "suf" in
      let E := fresh "E" in
      let Hbuf := fresh "Hbuf" in
      let Hst := fresh "Hst" in
      let Hpt := fresh "Hpt" in
      destruct (flush_line_extends s) as (fl & suf & E & Hbuf & Hst & Hpt);
      rewrite E; cbn [bind]
  end.

Ltac keeps_wf :=
  let Hc := fresh in
  let Ha := fresh in
  let Hf := fresh in
  intros (Hc & Ha & Hf); unfold wf_state;
  cbn [upd_state with_state with_buffer state chars_per_line alignment
       font_size set_alignment set_emphasized set_code_page set_font_b
       set_double_height set_double_width set_font_size];
  repeat match goal with H : state _ = state _ |- _ => rewrite H; clear H end;
  repeat split; try assumption; try lia.

Ltac extends_buffer :=
  cbn [upd_state with_state with_buffer buffer];
  first
    [ exists []; now rewrite app_nil_r
    | match goal with
      | H : buffer _ = (buffer _ ++ ?suf)%list |- _ =>
          rewrite H; rewrite <- ?app_assoc; eexists; reflexivity
      end ].

Ltac keeps_port :=
  cbn [upd_state with_state with_buffer port]; try assumption; reflexivity.

Ltac effects_at :=
  do 2 eexists; split; [reflexivity|];
  split; [extends_buffer|];
  split; [try (now keeps_wf)|];
  split; [keeps_port | lia].

(** A command of family A only appends to the buffer, keeps the state
    well formed and the port, and returns a cursor at most 2 past the end
    unless it was called on the last byte. *)
Lemma handle_esc_sequence_effects
  (self : ESCPOSSimulator) (data : list Z) (i : nat) :
  exists self' i',
    handle_esc_sequence self data i = Ok (self', i') /\
    (exists suf, buffer self' = (buffer self ++ suf)%list) /\
    (wf_state (state self) -> wf_state (state self')) /\
    port self' = port self /\
    (i' <= Nat.max (i + 1) (List.length data + 2))%nat.
Proof.
  unfold handle_esc_sequence.
  destruct (List.length data <=? i + 1)%nat eqn:L; [effects_at|].
  apply Nat.leb_gt in L.
  destruct (getitem_ok data (i + 1) L) as [b ->]. cbn [bind].
  destruct (b =? 64).
  { do 2 eexists; split; [reflexivity|].
    split; [extends_buffer|]. split; [intros _; apply wf_state_new|].
    split; [keeps_port | lia]. }
  destruct (b =? 97).
  { destruct (i + 2 <? List.length data)%nat eqn:G; cbn [bind]; [|effects_at].
    apply Nat.ltb_lt in G. flush_extends.
    destruct (getitem_ok data (i + 2) G) as [n ->]. cbn [bind].
    do 2 eexists; split; [reflexivity|].
    split; [extends_buffer|]. split; [|split; [keeps_port | lia]].
    pose proof (Z.mod_pos_bound n 3 ltac:(lia)). keeps_wf. }
  destruct (b =? 69).
  { destruct (i + 2 <? List.length data)%nat eqn:G; cbn [bind]; [|effects_at].
    apply Nat.ltb_lt in G.
    destruct (getitem_ok data (i + 2) G) as [n ->]. cbn [bind]. effects_at. }
  destruct (b =? 100).
  { destruct (i + 2 <? List.length data)%nat eqn:G; cbn [bind]; [|effects_at].
    apply Nat.ltb_lt in G. flush_extends.
    destruct (getitem_ok data (i + 2) G) as [n ->]. cbn [bind]. effects_at. }
  destruct (b =? 36); [effects_at|].
  destruct (b =? 116).
  { destruct (i + 2 <? List.length data)%nat eqn:G; cbn [bind]; [|effects_at].
    apply Nat.ltb_lt in G.
    destruct (getitem_ok data (i + 2) G) as [n ->]. cbn [bind]. effects_at. }
  destruct (b =? 33).
  { destruct (i + 2 <? List.length data)%nat eqn:G; cbn [bind]; [|effects_at].
    apply Nat.ltb_lt in G.
    destruct (getitem_ok data (i + 2) G) as [n ->]. cbn [bind]. effects_at. }
  effects_at.
Qed.

Lemma handle_gs_sequence_effects
  (self : ESCPOSSimulator) (data : list Z) (i : nat) :
  exists self' i',
    handle_gs_sequence self data i = Ok (self', i') /\
    (exists suf, buffer self' = (buffer self ++ suf)%list) /\
    (wf_state (state self) -> wf_state (state self')) /\
    port self' = port self /\
    (i' <= Nat.max (i + 1) (List.length data + 2))%nat.
Proof.
  unfold handle_gs_sequence.
  destruct (List.length data <=? i + 1)%nat eqn:L; [effects_at|].
  apply Nat.leb_gt in L.
  destruct (getitem_ok data (i + 1) L) as [b ->]. cbn [bind].
  destruct (b =? 86).
  { flush_extends. effects_at. }
  destruct (b =? 33).
  { destruct (i + 2 <? List.length data)%nat eqn:G; cbn [bind]; [|effects_at].
    apply Nat.ltb_lt in G.
    destruct (getitem_ok data (i + 2) G) as [n ->]. cbn [bind].
    do 2 eexists; split; [reflexivity|].
    split; [extends_buffer|]. split; [|split; [keeps_port | lia]].
    pose proof (char_size_range n). keeps_wf. }
  effects_at.
Qed.

Lemma scan_step_effects
  (self : ESCPOSSimulator) (data : list Z) (i : nat) :
  (i < List.length data)%nat ->
  exists self' i',
    scan_step self data i = Ok (self', i') /\
    (exists suf, buffer self' = (buffer self ++ suf)%list) /\
    (wf_state (state self) -> wf_state (state self')) /\
    port self' = port self /\
    (i' <= List.length data + 2)%nat.
Proof.
  intros Hi. unfold scan_step.
  destruct (getitem_ok data i Hi) as [byte ->]. cbn [bind].
  destruct (byte =? PrinterCommand.ESC).
  { destruct (handle_esc_sequence_effects self data i)
      as (s & i' & H & Hb & Hw & Hp & Hc).
    exists s, i'. repeat (split; [assumption|]). lia. }
  destruct (byte =? PrinterCommand.GS).
  { destruct (handle_gs_sequence_effects self data i)
      as (s & i' & H & Hb & Hw & Hp & Hc).
    exists s, i'. repeat (split; [assumption|]). lia. }
  destruct (byte =? PrinterCommand.FS).
  { destruct (handle_fs_sequence_ok self data i) as (i' & H & Hc).
    exists self, i'. split; [exact H|].
    split; [exists []; now rewrite app_nil_r|].
    split; [auto|]. split; [reflexivity | lia]. }
  destruct (byte =? PrinterCommand.LF).
  { flush_extends. effects_at. }
  destruct (byte =? PrinterCommand.CR); [effects_at|].
  destruct ((32 <=? byte) && (byte <=? 126)); effects_at.
Qed.

Local Open Scope nat_scope.

Lemma scan_cursor_bound (data : list Z) (fuel : nat) :
  forall self i s i',
    i <= List.length data + 2 ->
    scan fuel self data i = Returned (s, i') ->
    i' <= List.length data + 2.
Proof.
  induction fuel as [|fuel IH]; intros self i s i' Hi H; simpl in H.
  - destruct (i <? List.length data); [discriminate|].
    injection H as _ <-. exact Hi.
  - destruct (i <? List.length data) eqn:L.
    + apply Nat.ltb_lt in L.
      destruct (scan_step_effects self data i L) as (t & j & E & _ & _ & _ & Hj).
      rewrite E in H. exact (IH t j s i' Hj H).
    + injection H as _ <-. exact Hi.
Qed.

Local Close Scope nat_scope.

(** The cursor never runs far past the data: the loop exits with the
    cursor between the end of the data and 2 positions after it. *)
Theorem scan_cursor_overshoots_by_at_most_2
  (self : ESCPOSSimulator) (data : list Z) :
  exists s i',
    scan (List.length data) self data 0 = Returned (s, i') /\
    (List.length data <= i' <= List.length data + 2)%nat.
Proof.
  destruct (scan_returns self data) as (s & i' & E & Hlo).
  exists s, i'. split; [exact E|]. split; [exact Hlo|].
  eapply scan_cursor_bound; [|exact E]. lia.
Qed.

(** The scan loop only ever appends to the buffer: the lines already
    rendered stay where they are, unchanged by what is decoded later, and
    the port is kept. *)
Theorem scan_only_appends_lines (self : ESCPOSSimulator) (data : list Z) :
  exists s i' suf,
    scan (List.length data) self data 0 = Returned (s, i') /\
    buffer s = (buffer self ++ suf)%list /\
    port s = port self.
Proof.
  destruct (scan_invariant data
              (fun s => (exists suf, buffer s = (buffer self ++ suf)%list)
                        /\ port s = port self))
    with (fuel := List.length data) (self := self) (i := 0%nat)
    as (s & i' & E & _ & _ & (suf & Hs) & Hp).
  - intros t i t' j Hi [(suf & Hsuf) Hp] Hstep.
    destruct (scan_step_effects t data i Hi)
      as (u & k & E & (suf' & Hb) & _ & Hp' & _).
    rewrite E in Hstep. injection Hstep as <- <-. split.
    + exists (suf ++ suf')%list. now rewrite Hb, Hsuf, app_assoc.
    + congruence.
  - split; [exists []; now rewrite app_nil_r | reflexivity].
  - lia.
  - exists s, i', suf. auto.
Qed.

(** ** Well-formed states *)

(** A state with line width 48, alignment in 0..2 and font size in 1..8
    stays so through any batch, whatever its bytes; the state of a new
    engine is of this kind, hence so is every state an engine ever has. *)
Theorem process_data_keeps_state_well_formed
  (self : ESCPOSSimulator) (data : list Z) :
  wf_state (state self) ->
  exists self' out,
    process_data self data = Returned (self', out) /\
    wf_state (state self').
Proof.
  intros Hwf.
  destruct (scan_invariant data (fun s => wf_state (state s)))
    with (fuel := List.length data) (self := self) (i := 0%nat)
    as (s & i' & E & _ & _ & Hs); [|exact Hwf|lia|].
  - intros t i t' j Hi Ht Hstep.
    destruct (scan_step_effects t data i Hi) as (u & k & Eu & _ & Hw & _).
    rewrite Eu in Hstep. injection Hstep as <- <-. auto.
  - destruct (print_buffer_ok s) as (s' & out & P & Hst & _).
    exists s', out. unfold process_data. rewrite E, P.
    split; [reflexivity | now rewrite Hst].
Qed.

Lemma process_data_keeps_state_well_formed_witness :
  wf_state (state (ESCPOSSimulator_new 9100)) /\
  exists self' out,
    process_data (ESCPOSSimulator_new 9100) data_center_size5
    = Returned (self', out) /\
    wf_state (state self').
Proof.
  split; [unfold wf_state; cbn; lia|].
  apply process_data_keeps_state_well_formed. unfold wf_state. cbn. lia.
Defined.

(** In a well-formed state the width the text is justified to is between
    3 and 48, and computing it divides by no zero. *)
Theorem effective_width_between_3_and_48 (st : PrinterState) :
  wf_state st ->
  exists w, effective_width st = Ok w /\ 3 <= w <= 48.
Proof.
  intros (Hc & _ & Hf). rewrite effective_width_value. eexists.
  split; [reflexivity|]. cbv zeta. rewrite Hc.
  destruct (double_width st); change (48 / 2) with 24;
    destruct (font_size st >? 1) eqn:F; try lia.
  - split.
    + apply Z.div_le_lower_bound; lia.
    + apply Z.le_trans with 24; [|lia].
      apply Z.div_le_upper_bound; lia.
  - split.
    + apply Z.div_le_lower_bound; lia.
    + apply Z.div_le_upper_bound; lia.
Qed.

Lemma effective_width_between_3_and_48_witness :
  exists w, effective_width st_center_size5 = Ok w /\ 3 <= w <= 48.
Proof.
  apply effective_width_between_3_and_48. unfold wf_state. cbn. lia.
Defined.

(** ** Length of a rendered line *)

Lemma append_length (a b : string) :
  String.length (a ++ b) = (String.length a + String.length b)%nat.
Proof. induction a as [|c a IH]; simpl; congruence. Qed.

Lemma justify_pads (st : PrinterState) (text : string) (w : Z) :
  exists l r : nat,
    justify st text w = str_repeat " " l ++ text ++ str_repeat " " r /\
    (l + r)%nat = Z.to_nat (w - len text).
Proof.
  unfold justify.
  destruct (alignment st =? 1); [|destruct (alignment st =? 2)].
  - destruct (center_pads text w) as (l & r & H & Hlr & _). eauto.
  - exists (Z.to_nat (w - len text)), 0%nat. rewrite rjust_pads.
    cbn [str_repeat]. rewrite append_empty_r. split; [reflexivity | lia].
  - exists 0%nat, (Z.to_nat (w - len text)). rewrite ljust_pads.
    split; reflexivity.
Qed.

Lemma justify_length (st : PrinterState) (text : string) (w : Z) :
  String.length (justify st text w)
  = Nat.max (String.length text) (Z.to_nat w).
Proof.
  destruct (justify_pads st text w) as (l & r & -> & Hlr).
  rewrite !append_length, !str_repeat_char_length.
  unfold len in Hlr. lia.
Qed.

Lemma rendered_not_shorter (self : ESCPOSSimulator) (text r : string) :
  format_line self text = Ok r ->
  (String.length text <= String.length r)%nat.
Proof.
  unfold format_line.
  destruct (effective_width_ok (state self)) as [w ->]. cbn [bind].
  intros [= <-]. unfold expand, annotate.
  destruct (double_width (state self) || (font_size (state self) >? 1));
    destruct (emphasized (state self));
    rewrite ?join_chars_length, ?append_length, ?justify_length;
    cbn [bold_on bold_off String.length]; lia.
Qed.

(** The length of a rendered line.  The text is never cut: unscaled and
    unemphasized the line is as long as the longer of the text and the
    effective width; the bold sequences add 8 characters; scaling turns a
    length [m] into [2 * m - 1]. *)
Theorem format_line_length (self : ESCPOSSimulator) (text : string) :
  exists w r,
    effective_width (state self) = Ok w /\
    format_line self text = Ok r /\
    let justified := Nat.max (String.length text) (Z.to_nat w) in
    let annotated :=
      (justified + if emphasized (state self) then 8 else 0)%nat in
    String.length r
    = (if double_width (state self) || (font_size (state self) >? 1)
       then 2 * annotated - 1 else annotated)%nat /\
    (String.length text <= String.length r)%nat.
Proof.
  destruct (effective_width_ok (state self)) as [w Hw].
  exists w. eexists. split; [exact Hw|].
  unfold format_line. rewrite Hw. cbn [bind]. split; [reflexivity|].
  cbv zeta.
  assert (Hlen : String.length
                   (expand (state self)
                      (annotate (state self) (justify (state self) text w)))
                 = (if double_width (state self) || (font_size (state self) >? 1)
                    then 2 * (Nat.max (String.length text) (Z.to_nat w)
                              + (if emphasized (state self) then 8 else 0)) - 1
                    else Nat.max (String.length text) (Z.to_nat w)
                         + (if emphasized (state self) then 8 else 0))%nat).
  { unfold expand, annotate.
    destruct (double_width (state self) || (font_size (state self) >? 1));
      destruct (emphasized (state self));
      rewrite ?join_chars_length, ?append_length, ?justify_length;
      cbn [bold_on bold_off String.length]; lia. }
  split; [exact Hlen|]. rewrite Hlen.
  destruct (double_width (state self) || (font_size (state self) >? 1));
    destruct (emphasized (state self)); lia.
Qed.

(** [flush_line] never appends an empty entry: without pending text it
    changes nothing, with pending text it appends one line that is at least
    as long as the text, and a second flush changes nothing. *)
Theorem flush_line_appends_one_nonempty_line (self : ESCPOSSimulator) :
  exists fl,
    flush_line self = Ok fl /\
    flush_line fl = Ok fl /\
    (current_line self = "" -> fl = self) /\
    (current_line self <> "" ->
     exists r,
       buffer fl = (buffer self ++ [r])%list /\
       r <> "" /\
       (String.length (current_line self) <= String.length r)%nat).
Proof.
  destruct (flush_line_spec self) as (fl & E & Hs & Hp & Hl & Hb0 & Hb1).
  exists fl. split; [exact E|]. split; [|split].
  - unfold flush_line. now rewrite Hl.
  - intros Hc. unfold flush_line in E. rewrite Hc in E. simpl in E. congruence.
  - intros Hc. destruct (Hb1 Hc) as (r & Hr & Hbuf).
    exists r. split; [exact Hbuf|].
    pose proof (rendered_not_shorter self (current_line self) r Hr) as Hle.
    split; [|exact Hle].
    intros ->. destruct (current_line self); [congruence | simpl in Hle; lia].
Qed.

(** ** Rows of the display *)

Lemma receipt_row_inner (cpl : Z) (line : string) :
  0 <= cpl ->
  line = "" \/ String.length line = Z.to_nat cpl ->
  exists inner,
    receipt_row (cpl + 2) line = "│" ++ inner ++ "│" /\
    String.length inner = Z.to_nat (cpl + 2) /\
    (inner = " " ++ line ++ " " \/
     inner = str_repeat " " (Z.to_nat (cpl + 2))).
Proof.
  intros Hc Hline. unfold receipt_row.
  destruct (str_truthy (strip line)) eqn:T.
  - destruct Hline as [->|Hlen]; [discriminate|].
    exists (" " ++ line ++ " "). split; [|split; [|now left]].
    + change ("│ " ++ line ++ " │")
        with ("│" ++ " " ++ line ++ " " ++ "│").
      now rewrite !append_assoc_string.
    + cbn [append String.length]. rewrite append_length, Hlen.
      cbn [String.length]. lia.
  - exists (str_mul " " (cpl + 2)). split; [reflexivity|].
    unfold str_mul. split; [apply str_repeat_char_length | now right].
Qed.

Lemma receipt_rows_inner (cpl : Z) (lines : list string) :
  0 <= cpl ->
  Forall (fun line => line = "" \/ String.length line = Z.to_nat cpl) lines ->
  exists inners,
    map (receipt_row (cpl + 2)) lines
    = map (fun inner => "│" ++ inner ++ "│") inners /\
    Forall2
      (fun line inner =>
         String.length inner = Z.to_nat (cpl + 2) /\
         (inner = " " ++ line ++ " " \/
          inner = str_repeat " " (Z.to_nat (cpl + 2))))
      lines inners.
Proof.
  intros Hc. induction lines as [|line lines IH]; intros Hall.
  - exists []. split; [reflexivity | constructor].
  - inversion Hall as [|? ? Hline Hrest]; subst.
    destruct (IH Hrest) as (inners & Hmap & Hf).
    destruct (receipt_row_inner cpl line Hc Hline)
      as (inner & Hrow & Hlen & Hin).
    exists (inner :: inners). split.
    + cbn [map]. now rewrite Hrow, Hmap.
    + constructor; [split; assumption | assumption].
Qed.

(** The display of a buffer whose lines are each empty (a feed) or as long
    as the line width (a text of at most that length rendered unscaled and
    unemphasized, or the separator of a cut): the top and the bottom
    border have exactly [chars_per_line + 2] dashes between their corners,
    and every row has exactly [chars_per_line + 2] characters between its
    two bars, which are the line between two spaces or spaces only. *)
Theorem full_width_rows_fit_frame (self : ESCPOSSimulator) :
  0 <= chars_per_line (state self) ->
  current_line self = "" ->
  buffer self <> [] ->
  Forall (fun line =>
            line = "" \/
            String.length line = Z.to_nat (chars_per_line (state self)))
    (buffer self) ->
  exists inners,
    print_buffer self
    = Ok (with_buffer [] self,
          String (ascii_of_nat 10) "🧾 Receipt Output:"
          :: ("┌"
              ++ str_repeat "─" (Z.to_nat (chars_per_line (state self) + 2))
              ++ "┐")
          :: (map (fun inner => ("│" ++ inner ++ "│")%string) inners
              ++ [("└"
                   ++ str_repeat "─"
                        (Z.to_nat (chars_per_line (state self) + 2))
                   ++ "┘")%string])%list) /\
    Forall2
      (fun line inner =>
         String.length inner = Z.to_nat (chars_per_line (state self) + 2) /\
         (inner = " " ++ line ++ " " \/
          inner = str_repeat " " (Z.to_nat (chars_per_line (state self) + 2))))
      (buffer self) inners.
Proof.
  intros Hc Hcl Hne Hall.
  destruct (receipt_rows_inner _ (buffer self) Hc Hall) as (inners & Hmap & Hf).
  exists inners. split; [|exact Hf].
  unfold print_buffer, flush_line. rewrite Hcl.
  destruct (buffer self) as [|l0 ls] eqn:Hb; [congruence|].
  cbn [list_truthy negb andb str_truthy bind]. rewrite Hb.
  unfold receipt_box, newline, str_mul. cbn [app]. rewrite Hmap.
  reflexivity.
Qed.

Lemma full_width_rows_fit_frame_witness :
  exists inners,
    print_buffer (mkSim 9100 PrinterState_new
                    ["Total" ++ str_repeat " " 43; ""; str_repeat "-" 48] "")
    = Ok (ESCPOSSimulator_new 9100,
          [String (ascii_of_nat 10) "🧾 Receipt Output:";
           "┌" ++ str_repeat "─" 50 ++ "┐";
           "│ " ++ ("Total" ++ str_repeat " " 43) ++ " │";
           "│" ++ str_repeat " " 50 ++ "│";
           "│ " ++ str_repeat "-" 48 ++ " │";
           "└" ++ str_repeat "─" 50 ++ "┘"]) /\
    Forall (fun inner => String.length inner = 50%nat) inners.
Proof.
  assert (Hc : 0 <= 48) by lia.
  assert (Hall : Forall (fun line => line = "" \/ String.length line = 48%nat)
                   ["Total" ++ str_repeat " " 43; ""; str_repeat "-" 48]).
  { constructor; [right; reflexivity|].
    constructor; [left; reflexivity|].
    constructor; [right; reflexivity | constructor]. }
  destruct (full_width_rows_fit_frame
              (mkSim 9100 PrinterState_new
                 ["Total" ++ str_repeat " " 43; ""; str_repeat "-" 48] "")
              Hc eq_refl ltac:(discriminate) Hall)
    as (inners & _ & Hf).
  exists inners. split; [reflexivity|].
  inversion Hf as [|? i1 ? t1 [E1 _] F1]; subst.
  inversion F1 as [|? i2 ? t2 [E2 _] F2]; subst.
  inversion F2 as [|? i3 ? t3 [E3 _] F3]; subst.
  inversion F3; subst.
  repeat constructor; assumption.
Defined.

(** Unscaled and unemphasized, a text no longer than the line width is
    rendered as a line of exactly [chars_per_line] characters, whatever the
    alignment. *)
Theorem plain_line_has_line_width (self : ESCPOSSimulator) (text : string) :
  double_width (state self) = false ->
  font_size (state self) <= 1 ->
  emphasized (state self) = false ->
  len text <= chars_per_line (state self) ->
  exists r,
    format_line self text = Ok r /\
    String.length r = Z.to_nat (chars_per_line (state self)).
Proof.
  intros Hd Hf He Hlen.
  assert (F : (font_size (state self) >? 1) = false).
  { rewrite Z.gtb_ltb. apply Z.ltb_ge. exact Hf. }
  unfold format_line. rewrite effective_width_value. cbv zeta.
  rewrite Hd, F. cbn [bind]. eexists. split; [reflexivity|].
  unfold expand, annotate. rewrite Hd, F, He. cbn [orb].
  rewrite justify_length. unfold len in Hlen. lia.
Qed.

Lemma plain_line_has_line_width_witness :
  exists r, format_line sim0 "Total" = Ok r /\ String.length r = 48%nat.
Proof.
  apply (plain_line_has_line_width sim0 "Total");
    [reflexivity | cbn; lia | reflexivity | cbn; lia].
Defined.

(** ** The hex dump *)

Lemma hex_dump_cons2 (a b : Z) (l : list Z) :
  hex_dump (a :: b :: l)
  = String (hex_digit (a / 16))
      (String (hex_digit (a mod 16)) (String " " (hex_dump (b :: l)))).
Proof. reflexivity. Qed.

Lemma hex_dump_one (a : Z) : hex_dump [a] = hex2 a.
Proof. reflexivity. Qed.

Lemma hex_digit_inj (a b : Z) :
  0 <= a < 16 -> 0 <= b < 16 -> hex_digit a = hex_digit b -> a = b.
Proof.
  intros Ha Hb H.
  assert (Ea : a = 0 \/ a = 1 \/ a = 2 \/ a = 3 \/ a = 4 \/ a = 5 \/ a = 6
               \/ a = 7 \/ a = 8 \/ a = 9 \/ a = 10 \/ a = 11 \/ a = 12
               \/ a = 13 \/ a = 14 \/ a = 15) by lia.
  assert (Eb : b = 0 \/ b = 1 \/ b = 2 \/ b = 3 \/ b = 4 \/ b = 5 \/ b = 6
               \/ b = 7 \/ b = 8 \/ b = 9 \/ b = 10 \/ b = 11 \/ b = 12
               \/ b = 13 \/ b = 14 \/ b = 15) by lia.
  clear Ha Hb.
  repeat (destruct Ea as [->|Ea]); try subst a;
    repeat (destruct Eb as [->|Eb]); try subst b;
    try reflexivity; vm_compute in H; discriminate.
Qed.

Lemma hex2_inj (a b : Z) :
  is_byte a = true -> is_byte b = true -> hex2 a = hex2 b -> a = b.
Proof.
  unfold is_byte. intros Ha Hb H.
  apply andb_prop in Ha as [Ha0 Ha1]. apply andb_prop in Hb as [Hb0 Hb1].
  apply Z.leb_le in Ha0, Hb0. apply Z.ltb_lt in Ha1, Hb1.
  injection H as Hhi Hlo.
  pose proof (Z.mod_pos_bound a 16 ltac:(lia)).
  pose proof (Z.mod_pos_bound b 16 ltac:(lia)).
  assert (0 <= a / 16 < 16)
    by (split; [apply Z.div_pos; lia | apply Z.div_lt_upper_bound; lia]).
  assert (0 <= b / 16 < 16)
    by (split; [apply Z.div_pos; lia | apply Z.div_lt_upper_bound; lia]).
  apply hex_digit_inj in Hhi; [|assumption..].
  apply hex_digit_inj in Hlo; [|assumption..].
  rewrite (Z.div_mod a 16), (Z.div_mod b 16) by lia. congruence.
Qed.

(** The dump shows every byte as two lowercase hex digits, the bytes
    separated by one space: it is [3 * len(data) - 1] characters long, and
    two byte sequences with the same dump are the same sequence. *)
Theorem hex_dump_is_faithful (data data' : list Z) :
  forallb is_byte data = true ->
  forallb is_byte data' = true ->
  String.length (hex_dump data) = (3 * List.length data - 1)%nat /\
  (hex_dump data = hex_dump data' -> data = data').
Proof.
  intros Hd Hd'. split.
  - clear. induction data as [|a [|b l] IH]; [reflexivity | reflexivity |].
    rewrite hex_dump_cons2. cbn [String.length List.length] in *. lia.
  - revert data' Hd Hd'.
    induction data as [|a l IH]; intros [|a' l'] Hd Hd' H.
    + reflexivity.
    + destruct l'; discriminate H.
    + destruct l; discriminate H.
    + cbn [forallb] in Hd, Hd'.
      apply andb_prop in Hd as [Ha Hl]. apply andb_prop in Hd' as [Ha' Hl'].
      destruct l as [|b l], l' as [|b' l'].
      * rewrite !hex_dump_one in H. f_equal. now apply hex2_inj.
      * rewrite hex_dump_one, hex_dump_cons2 in H. discriminate H.
      * rewrite hex_dump_one, hex_dump_cons2 in H. discriminate H.
      * rewrite !hex_dump_cons2 in H. injection H as Hhi Hlo Hrest.
        f_equal.
        -- apply hex2_inj; [assumption..|]. unfold hex2. congruence.
        -- apply IH; assumption.
Qed.

Lemma hex_dump_is_faithful_witness :
  hex_dump data_center_size5 = "1d 21 40 1b 61 01 68 69 0a" /\
  String.length (hex_dump data_center_size5) = 26%nat.
Proof.
  split; [reflexivity|].
  exact (proj1 (hex_dump_is_faithful data_center_size5 [] eq_refl eq_refl)).
Defined.

(** ** A batch that starts with ESC @ *)

Lemma scan_S (fuel : nat) (self : ESCPOSSimulator) (data : list Z) (i : nat) :
  (i < List.length data)%nat ->
  scan (S fuel) self data i
  = match scan_step self data i with
    | Ok (self', i') => scan fuel self' data i'
    | Raise e => Raised e
    end.
Proof.
  intros H. cbn [scan]. apply Nat.ltb_lt in H. now rewrite H.
Qed.

Lemma format_line_default (self : ESCPOSSimulator) (text : string) :
  state self = PrinterState_new ->
  format_line self text
  = Ok (text ++ str_repeat " " (48 - String.length text)).
Proof.
  intros H. unfold format_line. rewrite H.
  change (effective_width PrinterState_new) with (@Ok Z 48). cbn [bind].
  unfold expand, annotate, justify.
  cbn [PrinterState_new double_width font_size emphasized alignment orb].
  change (1 >? 1) with false. change (0 =? 1) with false.
  change (0 =? 2) with false. cbv iota.
  rewrite ljust_pads. unfold len.
  replace (Z.to_nat (48 - Z.of_nat (String.length text)))
    with (48 - String.length text)%nat by lia.
  reflexivity.
Qed.

Lemma rendered_rows_are_map
  (f : string -> res string) (g : string -> string)
  (xs rows : list string) :
  (forall l, f l = Ok (g l)) ->
  Forall2 (fun l r => f l = Ok r) xs rows ->
  rows = map g xs.
Proof.
  intros Hf H. induction H as [|l r xs rows Hlr _ IH]; [reflexivity|].
  simpl. rewrite Hf in Hlr. injection Hlr as <-. now rewrite IH.
Qed.

(** A batch made of ESC @ followed by a document of printable text,
    processed by an engine with nothing pending.  Whatever the state of
    the engine was, every non-empty line is rendered left-justified and
    padded with spaces to 48 columns (a longer line is rendered whole),
    unscaled and unemphasized, and gives one row; the engine ends with the
    default state.  With no row nothing is printed; otherwise what is
    printed is the title, the top border of 50 dashes, the rows and the
    bottom border, where the row of a rendered line is that line between
    "│ " and " │" when it has a character that is not a space, and 50
    spaces between two bars (whatever the length of the line) when it is
    made of spaces only. *)
Theorem initialize_then_document_uses_defaults
  (self : ESCPOSSimulator) (ls : list string) (tail : string) :
  buffer self = [] ->
  current_line self = "" ->
  forallb printable_text ls = true ->
  printable_text tail = true ->
  let rows :=
    map (fun l => l ++ str_repeat " " (48 - String.length l))
      (filter str_truthy (ls ++ [tail])) in
  process_data self
    (PrinterCommand.ESC :: 0x40 :: encode_lines ls ++ encode tail)%list
  = Returned
      (with_state PrinterState_new self,
       match rows with
       | [] => []
       | _ =>
           String (ascii_of_nat 10) "🧾 Receipt Output:"
           :: ("┌" ++ str_repeat "─" 50 ++ "┐")
           :: (map (fun line =>
                      if existsb (fun c => negb (isspace c))
                           (list_ascii_of_string line)
                      then ("│ " ++ line ++ " │")%string
                      else ("│" ++ str_repeat " " 50 ++ "│")%string)
                 rows
               ++ [("└" ++ str_repeat "─" 50 ++ "┘")%string])%list
       end).
Proof.
  intros Hb Hcl Hls Htail rows.
  set (s1 := with_state PrinterState_new self).
  set (doc := (encode_lines ls ++ encode tail)%list).
  assert (Escan : scan (List.length (PrinterCommand.ESC :: 0x40 :: doc)) self
                    (PrinterCommand.ESC :: 0x40 :: doc) 0
                  = Returned (fold_left feed doc s1,
                              List.length (PrinterCommand.ESC :: 0x40 :: doc))).
  { change (List.length (PrinterCommand.ESC :: 0x40 :: doc))
      with (S (S (List.length doc))).
    rewrite scan_S by (cbn [List.length]; lia).
    rewrite (scan_step_initialize self (PrinterCommand.ESC :: 0x40 :: doc) 0
               eq_refl eq_refl).
    fold s1.
    apply scan_fuel_mono with (fuel := List.length doc); [|lia].
    exact (scan_feed_from doc [PrinterCommand.ESC; 0x40] s1
             (document_no_introducer ls tail Hls Htail)). }
  unfold process_data. rewrite Escan.
  destruct (document_display s1 ls tail Hb Hcl Hls Htail)
    as (rows' & Hrows' & Hprint).
  fold doc in Hprint. rewrite Hprint.
  assert (Hr : rows' = rows).
  { unfold rows. eapply rendered_rows_are_map; [|exact Hrows'].
    intros l. now apply format_line_default. }
  rewrite Hr. destruct rows; [reflexivity|].
  change (chars_per_line (state s1) + 2) with 50.
  now rewrite receipt_box_rows.
Qed.

Lemma initialize_then_document_uses_defaults_witness :
  process_data sim_clean_styled
    (PrinterCommand.ESC :: 0x40
     :: encode_lines ["Hi"; ""; str_repeat " " 60] ++ encode "OK")%list
  = Returned
      (with_state PrinterState_new sim_clean_styled,
       [String (ascii_of_nat 10) "🧾 Receipt Output:";
        "┌" ++ str_repeat "─" 50 ++ "┐";
        "│ " ++ ("Hi" ++ str_repeat " " 46) ++ " │";
        "│" ++ str_repeat " " 50 ++ "│";
        "│ " ++ ("OK" ++ str_repeat " " 46) ++ " │";
        "└" ++ str_repeat "─" 50 ++ "┘"]).
Proof.
  exact (initialize_then_document_uses_defaults sim_clean_styled
           ["Hi"; ""; str_repeat " " 60] "OK"
           eq_refl eq_refl eq_refl eq_refl).
Defined.
